(** * Recurrence resolution and aggregation of the availability scheduler

    A shallow embedding of [src/App.js]: the day-view filter of [App] and of
    [ShareView], the month indicator map built by the schedules snapshot
    callback, the comparator sort, and the creation handler
    [handleAddScheduleEntry].

    Conventions of the embedding.
    - A JavaScript [Date] is its time value: a [Z] number of milliseconds
      since 1970-01-01T00:00:00Z.
    - The browser's local time zone is a fixed offset [tz], in minutes east
      of UTC (local time = UTC + tz minutes); daylight-saving changes are
      not modelled.
    - A date-only string ['YYYY-MM-DD'] is represented by the day number of
      that calendar date (days since 1970-01-01); formatting is injective,
      so [===] on such strings is equality of day numbers.  A field that is
      [null], [undefined] or the empty string is [None].
    - An ISO date-time string written by [toISOString] is represented by
      its time value, a time-of-day string ['HH:MM'] by its number of
      minutes after midnight. *)

From Stdlib Require Import ZArith Lia List Bool String Sorted Permutation.
From stdpp Require Import base option list gmap strings.

Local Open Scope string_scope.
Local Open Scope Z_scope.

(** ** ECMAScript date arithmetic *)

Module JsDate.

Definition msPerDay : Z := 86400000.
Definition msPerMinute : Z := 60000.

(** [Day(t)] and [TimeWithinDay(t)] of the language specification. *)
Definition Day (t : Z) : Z := t / msPerDay.
Definition TimeWithinDay (t : Z) : Z := t mod msPerDay.

(** Day number of the proleptic Gregorian date [y]-[m]-[d], [m] in 1..12. *)
Definition daysFromCivil (y m d : Z) : Z :=
  let y' := if m <=? 2 then y - 1 else y in
  let era := y' / 400 in
  let yoe := y' - era * 400 in
  let doy := (153 * (if 2 <? m then m - 3 else m + 9) + 2) / 5 + d - 1 in
  let doe := yoe * 365 + yoe / 4 - yoe / 100 + doy in
  era * 146097 + doe - 719468.

(** Year, month (1..12) and day of month of a day number. *)
Definition civilFromDays (z : Z) : Z * Z * Z :=
  let z' := z + 719468 in
  let era := z' / 146097 in
  let doe := z' - era * 146097 in
  let yoe := (doe - doe / 1460 + doe / 36524 - doe / 146096) / 365 in
  let doy := doe - (365 * yoe + yoe / 4 - yoe / 100) in
  let mp := (5 * doy + 2) / 153 in
  let d := doy - (153 * mp + 2) / 5 + 1 in
  let m := if mp <? 10 then mp + 3 else mp - 9 in
  (if m <=? 2 then yoe + era * 400 + 1 else yoe + era * 400, m, d).

Definition YearFromDay (z : Z) : Z := fst (fst (civilFromDays z)).
Definition MonthFromDay (z : Z) : Z := snd (fst (civilFromDays z)) - 1.
Definition DateFromDay (z : Z) : Z := snd (civilFromDays z).

(** [MakeDay(year, month, date)]: [month] is zero-based and may lie
    outside 0..11, [date] may lie outside the month (day 0 is the last
    day of the previous month). *)
Definition MakeDay (year month date : Z) : Z :=
  daysFromCivil (year + month / 12) (month mod 12 + 1) 1 + date - 1.

Section Zone.
Variable tz : Z.

Definition LocalTime (t : Z) : Z := t + tz * msPerMinute.
Definition UTC (t : Z) : Z := t - tz * msPerMinute.

Definition getFullYear (t : Z) : Z := YearFromDay (Day (LocalTime t)).
Definition getMonth (t : Z) : Z := MonthFromDay (Day (LocalTime t)).
Definition getDate (t : Z) : Z := DateFromDay (Day (LocalTime t)).

(** 0 = Sunday ... 6 = Saturday; 1970-01-01 was a Thursday. *)
Definition getDay (t : Z) : Z := (Day (LocalTime t) + 4) mod 7.

(** [new Date(year, month, date)]: local midnight; a year in 0..99 is
    read as 1900 + year. *)
Definition newDate (year month date : Z) : Z :=
  let yr := if (0 <=? year) && (year <=? 99) then 1900 + year else year in
  UTC (MakeDay yr month date * msPerDay).

(** [d.setDate(date)] returns the new time value of [d]. *)
Definition setDate (t date : Z) : Z :=
  UTC (MakeDay (getFullYear t) (getMonth t) date * msPerDay
       + TimeWithinDay (LocalTime t)).

(** [new Date(`${isoDate}T${HH:MM}:00`)]: a date-time string without an
    offset is local time. *)
Definition parseLocalDateTime (isoDate minutes : Z) : Z :=
  UTC (isoDate * msPerDay + minutes * msPerMinute).

(** [d.toDateString()]: the local calendar date, represented by its day
    number (the weekday it prints is a function of the date). *)
Definition toDateString (t : Z) : Z := Day (LocalTime t).
End Zone.

(** [new Date('YYYY-MM-DD')]: a date-only string is UTC midnight. *)
Definition parseDateOnly (isoDate : Z) : Z := isoDate * msPerDay.

(** [d.toISOString().split('T')[0]]: the UTC calendar date of [d]. *)
Definition toISODate (t : Z) : Z := Day t.

(** The date-only string written ['y-m-d']. *)
Definition isoDate (y m d : Z) : Z := daysFromCivil y m d.

End JsDate.

Import JsDate.

(** ** Stored records *)

(** A document of the [schedules] collection; [ownerUserId] is its
    [userId] field. *)
Record ScheduleDoc := {
  date : Z;
  startDateTimeUTC : Z;
  endDateTimeUTC : Z;
  activityId : string;
  activityName : string;
  activityColor : string;
  ownerUserId : string;
  recurrenceType : string;
  recurrenceDays : option (list Z);
  recurrenceStartDate : option Z;
  recurrenceEndDate : option Z;
  createdAt : Z
}.

(** [{ id: doc.id, ...doc.data() }] *)
Record Entry := { entryId : string; data :> ScheduleDoc }.

(** A document of the [activityItems] collection, with its id. *)
Record Activity := { itemId : string; name : string; color : string }.

(** ** Pieces shared by the embeddings *)

(** [arr.includes(x)] on an array of numbers. *)
Definition includes (arr : list Z) (x : Z) : bool := existsb (Z.eqb x) arr.

(** [entry.recurrenceStartDate ? new Date(entry.recurrenceStartDate) : null] *)
Definition entryStartDate (entry : Entry) : option Z :=
  parseDateOnly <$> recurrenceStartDate entry.

Definition entryEndDate (entry : Entry) : option Z :=
  parseDateOnly <$> recurrenceEndDate entry.

(** [!bound || p bound] for a [Date]-or-[null] bound. *)
Definition nullOr (bound : option Z) (p : Z -> bool) : bool :=
  match bound with None => true | Some b => p b end.

(** [ToNumber] of a [Date]-or-[null] operand of a relational operator. *)
Definition toNumber (bound : option Z) : Z := default 0 bound.

(** [Array.prototype.sort] with a comparator: a stable sort; an element
    goes before the first element it does not compare greater than. *)
Fixpoint insertSorted {A} (cmp : A -> A -> Z) (x : A) (l : list A) : list A :=
  match l with
  | [] => [x]
  | y :: ys => if cmp x y <=? 0 then x :: y :: ys else y :: insertSorted cmp x ys
  end.

Definition arraySort {A} (cmp : A -> A -> Z) (l : list A) : list A :=
  foldr (insertSorted cmp) [] l.

(** [(a, b) => new Date(a.startDateTimeUTC) - new Date(b.startDateTimeUTC)] *)
Definition byStartTime (a b : Entry) : Z := startDateTimeUTC a - startDateTimeUTC b.

(** ** ShareView: the shared, read-only day view *)

Module ShareView.
Section Zone.
Variable tz : Z.

(** The [filter] callback of [filteredEntries]. *)
Definition keepEntry (sharedDate : Z) (entry : Entry) : bool :=
  let currentDayOfWeek := getDay tz sharedDate in
  let dateString := toISODate sharedDate in
  let selectedDateOnly :=
    newDate tz (getFullYear tz sharedDate) (getMonth tz sharedDate)
            (getDate tz sharedDate) in
  let isWithinRecurrenceRange :=
    nullOr (entryStartDate entry) (fun s => s <=? selectedDateOnly) &&
    nullOr (entryEndDate entry) (fun e => selectedDateOnly <=? e) in
  if negb isWithinRecurrenceRange then false
  else
    let isOneTime :=
      String.eqb (recurrenceType entry) "none" && (date entry =? dateString) in
    let isDailyRecurring := String.eqb (recurrenceType entry) "daily" in
    let isWeeklyRecurring :=
      String.eqb (recurrenceType entry) "weekly" &&
      match recurrenceDays entry with
      | None => false
      | Some days => includes days currentDayOfWeek
      end in
    isOneTime || isDailyRecurring || isWeeklyRecurring.

Definition filteredEntries (sharedDate : Z) (allEntries : list Entry)
  : list Entry :=
  arraySort byStartTime (List.filter (keepEntry sharedDate) allEntries).
End Zone.
End ShareView.

(** ** App: the owner's calendar *)

(** Completion of a callback: it returns, or a [TypeError] aborts it. *)
Inductive JsError := TypeError.

Inductive Completion (A : Type) :=
| Normal (a : A)
| Throw (e : JsError).
Arguments Normal {A} a.
Arguments Throw {A} e.

#[global] Instance Completion_ret : MRet Completion := fun A a => Normal a.

#[global] Instance Completion_bind : MBind Completion := fun A B k c =>
  match c with
  | Normal a => k a
  | Throw e => Throw e
  end.

(** [arr.forEach(body)] threading the variables the body assigns. *)
Fixpoint forEach {A S} (body : S -> A -> Completion S) (arr : list A) (s : S)
  : Completion S :=
  match arr with
  | [] => Normal s
  | x :: xs => s' ← body s x; forEach body xs s'
  end.

Module App.
Section Zone.
Variable tz : Z.

(** The helper [isDateWithinRecurrenceRange] closed over one entry. *)
Definition isDateWithinRecurrenceRange (entry : Entry) (dateToCheck : Z) : bool :=
  let dateOnly :=
    newDate tz (getFullYear tz dateToCheck) (getMonth tz dateToCheck)
            (getDate tz dateToCheck) in
  nullOr (entryStartDate entry) (fun s => s <=? dateOnly) &&
  nullOr (entryEndDate entry) (fun e => dateOnly <=? e).

Section Month.
Variable currentMonth : Z.

Definition currentMonthStartDate : Z :=
  newDate tz (getFullYear tz currentMonth) (getMonth tz currentMonth) 1.

Definition currentMonthEndDate : Z :=
  newDate tz (getFullYear tz currentMonth) (getMonth tz currentMonth + 1) 0.

(** [new Date(entry.date)] falls in the displayed month and year. *)
Definition dateInCurrentMonth (entry : Entry) : bool :=
  (getMonth tz (parseDateOnly (date entry)) =? getMonth tz currentMonth) &&
  (getFullYear tz (parseDateOnly (date entry)) =? getFullYear tz currentMonth).

(** [&&] binds tighter than [||]: the recurring alternative is
    [(type !== 'none' && inRange(start)) || inRange(end) || (...)]. *)
Definition isRelevantForMonth (entry : Entry) : bool :=
  (String.eqb (recurrenceType entry) "none" && dateInCurrentMonth entry) ||
  ((negb (String.eqb (recurrenceType entry) "none") &&
    isDateWithinRecurrenceRange entry currentMonthStartDate) ||
   isDateWithinRecurrenceRange entry currentMonthEndDate ||
   ((toNumber (entryStartDate entry) <=? currentMonthStartDate) &&
    (currentMonthEndDate <=? toNumber (entryEndDate entry)))).

(** The condition guarding [datesWithActivities.set] in the day loop;
    [entry.recurrenceDays.includes] is reached only for an in-range day of
    a ['weekly'] entry and throws when the field is missing. *)
Definition firesOn (entry : Entry) (tempDate : Z) : Completion bool :=
  let tempDayOfWeek := getDay tz tempDate in
  if negb (isDateWithinRecurrenceRange entry tempDate) then Normal false
  else if String.eqb (recurrenceType entry) "daily" then Normal true
  else if negb (String.eqb (recurrenceType entry) "weekly") then Normal false
  else match recurrenceDays entry with
       | None => Throw TypeError
       | Some days => Normal (includes days tempDayOfWeek)
       end.

(** [while (tempDate <= currentMonthEndDate) { ...; tempDate.setDate(...) }];
    [fuel] bounds the number of iterations. *)
Fixpoint dayLoop (fuel : nat) (entry : Entry) (tempDate : Z)
  (datesWithActivities : gmap Z string) : Completion (gmap Z string) :=
  match fuel with
  | O => Normal datesWithActivities
  | S fuel' =>
      if tempDate <=? currentMonthEndDate then
        let tempDateString := toISODate tempDate in
        fires ← firesOn entry tempDate;
        let datesWithActivities' :=
          if fires : bool
          then <[tempDateString := activityColor entry]> datesWithActivities
          else datesWithActivities in
        dayLoop fuel' entry (setDate tz tempDate (getDate tz tempDate + 1))
                datesWithActivities'
      else Normal datesWithActivities
  end.

(** One more than the number of whole days from the first to the last
    instant of the loop: each iteration advances [tempDate] by one day. *)
Definition dayLoopFuel : nat :=
  S (Z.to_nat ((currentMonthEndDate - currentMonthStartDate) / msPerDay)).

(** The part of the [forEach] body that populates the month map. *)
Definition populateMonth (entry : Entry) (datesWithActivities : gmap Z string)
  : Completion (gmap Z string) :=
  if isRelevantForMonth entry then
    if String.eqb (recurrenceType entry) "none" then
      if dateInCurrentMonth entry
      then Normal (<[date entry := activityColor entry]> datesWithActivities)
      else Normal datesWithActivities
    else dayLoop dayLoopFuel entry currentMonthStartDate datesWithActivities
  else Normal datesWithActivities.

Section Selected.
Variable selectedDate : Z.

(** The selected-date test of the [forEach] body. *)
Definition matchesSelectedDate (entry : Entry) : bool :=
  let selectedDateString := toISODate selectedDate in
  let selectedDayOfWeek := getDay tz selectedDate in
  if isDateWithinRecurrenceRange entry selectedDate then
    let isOneTime :=
      String.eqb (recurrenceType entry) "none" &&
      (date entry =? selectedDateString) in
    let isDailyRecurring := String.eqb (recurrenceType entry) "daily" in
    let isWeeklyRecurring :=
      String.eqb (recurrenceType entry) "weekly" &&
      match recurrenceDays entry with
      | None => false
      | Some days => includes days selectedDayOfWeek
      end in
    isOneTime || isDailyRecurring || isWeeklyRecurring
  else false.

(** The [forEach] body over [(datesWithActivities, entriesForSelectedDate)]. *)
Definition forEachBody (st : gmap Z string * list Entry) (entry : Entry)
  : Completion (gmap Z string * list Entry) :=
  dates ← populateMonth entry (fst st);
  Normal (dates,
          if matchesSelectedDate entry then (snd st ++ [entry])%list else snd st).

(** The schedules snapshot callback: what it passes to
    [setMonthlyScheduleData] and [setScheduleEntries], unless it throws. *)
Definition onSchedulesSnapshot (allEntries : list Entry)
  : Completion (gmap Z string * list Entry) :=
  st ← forEach forEachBody allEntries (∅, []);
  Normal (fst st, arraySort byStartTime (snd st)).

End Selected.
End Month.

(** *** Creating a schedule entry *)

(** The component state and collaborators read by [handleAddScheduleEntry];
    [db] tells whether the Firestore handle is set. *)
Record State := {
  selectedDate : option Z;
  newScheduleActivityId : string;
  newScheduleStartTime : option Z;
  newScheduleEndTime : option Z;
  newScheduleRecurrenceType : string;
  newScheduleRecurrenceDays : list Z;
  newScheduleRecurrenceStartDate : option Z;
  newScheduleRecurrenceEndDate : option Z;
  activityItems : list Activity;
  db : bool;
  userId : option string
}.

(** What one call of the handler does. *)
Inductive Effect :=
| SetError (message : string)
| AddDoc (payload : ScheduleDoc)
| NoEffect.

(** The checks made when [newScheduleRecurrenceType !== 'none']. *)
Definition checkRecurrence (st : State) : option string :=
  if negb (String.eqb (newScheduleRecurrenceType st) "none") then
    match newScheduleRecurrenceStartDate st with
    | None => Some "Please provide a start date for the repeating schedule."
    | Some startDate =>
        if match newScheduleRecurrenceEndDate st with
           | None => false
           | Some endDate => parseDateOnly endDate <? parseDateOnly startDate
           end
        then Some "Recurrence end date cannot be before start date."
        else if String.eqb (newScheduleRecurrenceType st) "weekly" &&
                (Z.of_nat (length (newScheduleRecurrenceDays st)) =? 0)
        then Some "Please select at least one day for weekly recurrence."
        else None
    end
  else None.

(** The object passed to [addDoc]; [now] is the clock read for [createdAt]. *)
Definition newScheduleDoc (now : Z) (st : State) (selected startDateTimeLocal
  endDateTimeLocal : Z) (selectedActivity : Activity) (uid : string)
  : ScheduleDoc :=
  let type := newScheduleRecurrenceType st in
  {| date := toISODate selected;
     startDateTimeUTC := startDateTimeLocal;
     endDateTimeUTC := endDateTimeLocal;
     activityId := newScheduleActivityId st;
     activityName := name selectedActivity;
     activityColor := color selectedActivity;
     ownerUserId := uid;
     recurrenceType := type;
     recurrenceDays :=
       Some (if String.eqb type "weekly" then newScheduleRecurrenceDays st else []);
     recurrenceStartDate :=
       if negb (String.eqb type "none") then newScheduleRecurrenceStartDate st
       else None;
     recurrenceEndDate :=
       if negb (String.eqb type "none") then newScheduleRecurrenceEndDate st
       else None;
     createdAt := now |}.

Definition handleAddScheduleEntry (now : Z) (st : State) : Effect :=
  match selectedDate st, newScheduleStartTime st, newScheduleEndTime st with
  | Some selected, Some startTime, Some endTime =>
      if String.eqb (newScheduleActivityId st) ""
      then SetError "Please select a date, activity, start time, and end time."
      else
        let startDateTimeLocal :=
          parseLocalDateTime tz (toISODate selected) startTime in
        let endDateTimeLocal :=
          parseLocalDateTime tz (toISODate selected) endTime in
        if endDateTimeLocal <=? startDateTimeLocal
        then SetError "End time must be after start time."
        else
          match checkRecurrence st with
          | Some message => SetError message
          | None =>
              match List.find (fun item =>
                        String.eqb (itemId item) (newScheduleActivityId st))
                      (activityItems st) with
              | None => SetError "Selected activity not found."
              | Some selectedActivity =>
                  match db st, userId st with
                  | true, Some uid =>
                      AddDoc (newScheduleDoc now st selected startDateTimeLocal
                                endDateTimeLocal selectedActivity uid)
                  | _, _ => NoEffect
                  end
              end
          end
  | _, _, _ =>
      SetError "Please select a date, activity, start time, and end time."
  end.

(** *** Calendar functions *)

Definition getDaysInMonth (date : Z) : Z :=
  let year := getFullYear tz date in
  let month := getMonth tz date in
  getDate tz (newDate tz year (month + 1) 0).



(** [new Date(currentMonth.getFullYear(), currentMonth.getMonth(), i)] *)
Definition dayDateOf (currentMonth i : Z) : Z :=
  newDate tz (getFullYear tz currentMonth) (getMonth tz currentMonth) i.


(** [{activityDotColor && <span .../>}]: the dot is drawn for a non-empty
    colour string. *)
Definition dotDrawn (activityDotColor : option string) : bool :=
  match activityDotColor with
  | Some c => negb (String.eqb c "")
  | None => false
  end.

(** [changeMonth(offset)]: the new [currentMonth] and [selectedDate]. *)
Definition changeMonth (offset prevMonth : Z) : Z * Z :=
  let newMonth :=
    newDate tz (getFullYear tz prevMonth) (getMonth tz prevMonth + offset) 1 in
  (newMonth, newDate tz (getFullYear tz newMonth) (getMonth tz newMonth) 1).

(** *** The recurrence fields of the form *)

(** The updater of [handleRecurrenceDayChange] applied to [prevDays]. *)
Definition handleRecurrenceDayChange (dayIndex : Z) (prevDays : list Z)
  : list Z :=
  if includes prevDays dayIndex
  then List.filter (fun d => negb (d =? dayIndex)) prevDays
  else arraySort (fun a b => a - b) (prevDays ++ [dayIndex])%list.

(** The events of the entry form that write its state: the weekday
    checkboxes, the [Repeats] select, the other inputs, and the clearing of
    the form after [addDoc] resolved ([today] is the ISO date of the
    clock). *)
Inductive FormEvent :=
| ToggleRecurrenceDay (dayIndex : Z)
| SelectRecurrenceType (value : string)
| SetRecurrenceStartDate (value : option Z)
| SetRecurrenceEndDate (value : option Z)
| SetStartTime (value : option Z)
| SetEndTime (value : option Z)
| SetActivityId (value : string)
| ClearForm (today : Z).

Definition formStep (ev : FormEvent) (st : State) : State :=
  let build activity startTime endTime type days windowStart windowEnd :=
    {| selectedDate := selectedDate st;
       newScheduleActivityId := activity;
       newScheduleStartTime := startTime;
       newScheduleEndTime := endTime;
       newScheduleRecurrenceType := type;
       newScheduleRecurrenceDays := days;
       newScheduleRecurrenceStartDate := windowStart;
       newScheduleRecurrenceEndDate := windowEnd;
       activityItems := activityItems st;
       db := db st;
       userId := userId st |} in
  let activity := newScheduleActivityId st in
  let startTime := newScheduleStartTime st in
  let endTime := newScheduleEndTime st in
  let type := newScheduleRecurrenceType st in
  let days := newScheduleRecurrenceDays st in
  let windowStart := newScheduleRecurrenceStartDate st in
  let windowEnd := newScheduleRecurrenceEndDate st in
  match ev with
  | ToggleRecurrenceDay dayIndex =>
      build activity startTime endTime type
            (handleRecurrenceDayChange dayIndex days) windowStart windowEnd
  | SelectRecurrenceType value =>
      build activity startTime endTime value
            (if negb (String.eqb value "weekly") then [] else days)
            windowStart windowEnd
  | SetRecurrenceStartDate value =>
      build activity startTime endTime type days value windowEnd
  | SetRecurrenceEndDate value =>
      build activity startTime endTime type days windowStart value
  | SetStartTime value =>
      build activity value endTime type days windowStart windowEnd
  | SetEndTime value =>
      build activity startTime value type days windowStart windowEnd
  | SetActivityId value =>
      build value startTime endTime type days windowStart windowEnd
  | ClearForm today =>
      build (match activityItems st with
             | first :: _ => itemId first
             | [] => ""
             end)
            (Some (9 * 60)) (Some (10 * 60)) "none" [] (Some today) None
  end.

(** *** Sharing *)

(** The parameters of a share link. *)
Record ShareLink := { linkUserId : string; linkDate : Z }.

(** [generateShareLink]: the link it shows, or the error it sets. *)
Definition generateShareLink (uid : option string) (selected : Z)
  : ShareLink + string :=
  match uid with
  | Some u => inl {| linkUserId := u; linkDate := toISODate selected |}
  | None => inr "Please log in to generate a share link."
  end.

End Zone.
End App.

(** ** The year of a [Date] constructor *)

(** The year [new Date(year, month, date)] reads from its first argument. *)
Definition constructorYear (year : Z) : Z :=
  if (0 <=? year) && (year <=? 99) then 1900 + year else year.

(** ** Reading a share link *)

(** Weekday names for recurrence selection; a checkbox carries the index
    of its name. *)
Definition weekdays : list string :=
  ["Sunday"; "Monday"; "Tuesday"; "Wednesday"; "Thursday"; "Friday";
   "Saturday"].

(** The first effect of [ShareView]: the [userId] and [date] query
    parameters give the shared user and [new Date(dateFromUrl)], or the
    error shown. *)
Definition readShareParams (userIdFromUrl : option string)
  (dateFromUrl : option Z) : (string * Z) + string :=
  match userIdFromUrl, dateFromUrl with
  | Some u, Some d => inl (u, parseDateOnly d)
  | _, _ => inr "Invalid share link. User ID or date is missing."
  end.

(** Opening a generated link: the query string
    [?userId=${userId}&date=${date}] is read back parameter by parameter
    (user ids carry no character that a query string escapes). *)
Definition openShareLink (link : App.ShareLink) : (string * Z) + string :=
  readShareParams (Some (App.linkUserId link)) (Some (App.linkDate link)).

(** The form events a rendered form can raise: a checkbox index is a
    position of [weekdays], the select offers three values. *)
Definition formEventOffered (ev : App.FormEvent) : Prop :=
  match ev with
  | App.ToggleRecurrenceDay dayIndex =>
      0 <= dayIndex < Z.of_nat (length weekdays)
  | App.SelectRecurrenceType value =>
      value = "none" \/ value = "daily" \/ value = "weekly"
  | _ => True
  end.

(** ** Vocabulary of the specification *)

(** [occ] is the occurrence list shown for the date [selected] of the
    collection [entries]: the list of the shared view, or the list the
    owner's snapshot callback hands to [setScheduleEntries]. *)
Definition OccurrenceList (tz selected : Z) (entries occ : list Entry) : Prop :=
  occ = ShareView.filteredEntries tz selected entries \/
  exists currentMonth dates,
    App.onSchedulesSnapshot tz currentMonth selected entries = Normal (dates, occ).

Definition startsNoLater (a b : Entry) : Prop :=
  startDateTimeUTC a <= startDateTimeUTC b.

(** Ascending start instant, ties in ascending identifier order. *)
Definition startThenIdOrder (a b : Entry) : Prop :=
  startDateTimeUTC a < startDateTimeUTC b \/
  (startDateTimeUTC a = startDateTimeUTC b /\
   String.leb (entryId a) (entryId b) = true).

(** The creation-time constraints on a schedule document. *)
Definition validScheduleDoc (p : ScheduleDoc) : Prop :=
  startDateTimeUTC p < endDateTimeUTC p /\
  (recurrenceType p <> "none" -> is_Some (recurrenceStartDate p)) /\
  (forall s e, recurrenceStartDate p = Some s -> recurrenceEndDate p = Some e ->
               s <= e) /\
  (recurrenceType p = "weekly" -> recurrenceDays p <> Some []).

(** ** Sample records *)

(** A one-hour block starting at [hour]:00 UTC on the day [anchor]. *)
Definition sampleEntry (ident : string) (anchor hour : Z) (type : string)
  (days : option (list Z)) (windowStart windowEnd : option Z) : Entry :=
  {| entryId := ident;
     data := {| date := anchor;
                startDateTimeUTC := parseLocalDateTime 0 anchor (hour * 60);
                endDateTimeUTC := parseLocalDateTime 0 anchor (hour * 60 + 60);
                activityId := "act-1";
                activityName := "Focus";
                activityColor := "#3366ff";
                ownerUserId := "owner-1";
                recurrenceType := type;
                recurrenceDays := days;
                recurrenceStartDate := windowStart;
                recurrenceEndDate := windowEnd;
                createdAt := parseDateOnly anchor |} |}.

(** Daily from 2024-03-10 to 2024-03-20, a window inside March 2024. *)
Definition dailyMidMarch : Entry :=
  sampleEntry "daily-1" (isoDate 2024 3 10) 9 "daily" (Some [])
              (Some (isoDate 2024 3 10)) (Some (isoDate 2024 3 20)).

(** Weekly on Sundays from Sunday 2024-03-10 to Sunday 2024-03-24. *)
Definition weeklySundays : Entry :=
  sampleEntry "weekly-1" (isoDate 2024 3 10) 9 "weekly" (Some [0])
              (Some (isoDate 2024 3 10)) (Some (isoDate 2024 3 24)).

(** Two one-time entries on 2024-03-10 with the same start instant. *)
Definition oneTimeA : Entry :=
  sampleEntry "a" (isoDate 2024 3 10) 9 "none" (Some []) None None.

Definition oneTimeB : Entry :=
  sampleEntry "b" (isoDate 2024 3 10) 9 "none" (Some []) None None.

(** A one-time entry on 2024-03-10 starting an hour before [oneTimeA]. *)
Definition oneTimeEarly : Entry :=
  sampleEntry "c" (isoDate 2024 3 10) 8 "none" (Some []) None None.

(** A one-time entry on 2024-03-10 carrying a window that starts later. *)
Definition oneTimeWindowed : Entry :=
  sampleEntry "none-1" (isoDate 2024 3 10) 9 "none" (Some [])
              (Some (isoDate 2024 3 15)) None.




(** A weekly record fetched without its [recurrenceDays] field. *)
Definition weeklyNoDays : Entry :=
  sampleEntry "weekly-2" (isoDate 2024 3 4) 9 "weekly" None None None.

(** A form state: daily from 2024-03-10, one activity, signed in. *)
Definition sampleState (type : string) (days : list Z)
  (windowStart windowEnd : option Z) : App.State :=
  {| App.selectedDate := Some (newDate 0 2024 2 10);
     App.newScheduleActivityId := "act-1";
     App.newScheduleStartTime := Some (9 * 60);
     App.newScheduleEndTime := Some (10 * 60);
     App.newScheduleRecurrenceType := type;
     App.newScheduleRecurrenceDays := days;
     App.newScheduleRecurrenceStartDate := windowStart;
     App.newScheduleRecurrenceEndDate := windowEnd;
     App.activityItems :=
       [{| itemId := "act-1"; name := "Focus"; color := "#3366ff" |}];
     App.db := true;
     App.userId := Some "owner-1" |}.

(** The document stored for a non-repeating entry from 9 to 10 on the
    date selected in [sampleState], browser in UTC, clock at 0. *)
Definition sampleStored : ScheduleDoc :=
  App.newScheduleDoc 0 (sampleState "none" [] None None) (newDate 0 2024 2 10)
    (parseLocalDateTime 0 (toISODate (newDate 0 2024 2 10)) (9 * 60))
    (parseLocalDateTime 0 (toISODate (newDate 0 2024 2 10)) (10 * 60))
    {| itemId := "act-1"; name := "Focus"; color := "#3366ff" |} "owner-1".

(** The weekly choice, then Wednesday and Monday ticked in that order. *)
Definition sampleClicks : list App.FormEvent :=
  [App.SelectRecurrenceType "weekly"; App.ToggleRecurrenceDay 3;
   App.ToggleRecurrenceDay 1].

(** * Properties *)

(** ** Date arithmetic *)

Lemma yearOfEra_bounds (doe : Z) :
  0 <= doe < 146097 ->
  0 <= (doe - doe / 1460 + doe / 36524 - doe / 146096) / 365 <= 399.
Proof.
  intros Hdoe. Z.div_mod_to_equations. lia.
Qed.

Lemma dayOfYear_bounds (doe : Z) :
  0 <= doe < 146097 ->
  let yoe := (doe - doe / 1460 + doe / 36524 - doe / 146096) / 365 in
  0 <= doe - (365 * yoe + yoe / 4 - yoe / 100) <= 365.
Proof.
  intros Hdoe yoe. subst yoe. Z.div_mod_to_equations. lia.
Qed.

Lemma monthIndex_bounds (doy : Z) :
  0 <= doy <= 365 -> 0 <= (5 * doy + 2) / 153 <= 11.
Proof.
  intros Hdoy. Z.div_mod_to_equations. lia.
Qed.

(** The two calendar conversions are inverse on day numbers. *)
Lemma daysFromCivil_civilFromDays (z : Z) :
  daysFromCivil (YearFromDay z) (MonthFromDay z + 1) (DateFromDay z) = z.
Proof.
  unfold YearFromDay, MonthFromDay, DateFromDay, civilFromDays. cbn [fst snd].
  set (era := (z + 719468) / 146097).
  set (doe := z + 719468 - era * 146097).
  assert (Hdoe : 0 <= doe < 146097).
  { subst doe era. Z.div_mod_to_equations. lia. }
  pose proof (yearOfEra_bounds doe Hdoe) as Hyoe.
  pose proof (dayOfYear_bounds doe Hdoe) as Hdoy. cbv zeta in Hdoy.
  set (yoe := (doe - doe / 1460 + doe / 36524 - doe / 146096) / 365) in *.
  set (doy := doe - (365 * yoe + yoe / 4 - yoe / 100)) in *.
  pose proof (monthIndex_bounds doy Hdoy) as Hmp.
  set (mp := (5 * doy + 2) / 153) in *.
  unfold daysFromCivil.
  replace (_ - 1 + 1) with (if mp <? 10 then mp + 3 else mp - 9) by lia.
  set (m := if mp <? 10 then mp + 3 else mp - 9).
  assert (Hm : (if 2 <? m then m - 3 else m + 9) = mp).
  { subst m. destruct (Z.ltb_spec mp 10).
    - destruct (Z.ltb_spec 2 (mp + 3)); lia.
    - destruct (Z.ltb_spec 2 (mp - 9)); lia. }
  rewrite Hm.
  assert (Hy : (if m <=? 2
                then (if m <=? 2 then yoe + era * 400 + 1 else yoe + era * 400) - 1
                else (if m <=? 2 then yoe + era * 400 + 1 else yoe + era * 400))
               = yoe + era * 400).
  { destruct (m <=? 2); lia. }
  rewrite Hy.
  assert (Hera : (yoe + era * 400) / 400 = era).
  { rewrite Z.div_add by lia. rewrite Z.div_small by lia. lia. }
  rewrite Hera.
  replace (yoe + era * 400 - era * 400) with yoe by lia.
  clearbody yoe mp m. subst doy doe. lia.
Qed.

Lemma MonthFromDay_bounds (z : Z) : 0 <= MonthFromDay z <= 11.
Proof.
  unfold MonthFromDay, civilFromDays. cbn [fst snd].
  set (era := (z + 719468) / 146097).
  set (doe := z + 719468 - era * 146097).
  assert (Hdoe : 0 <= doe < 146097).
  { subst doe era. Z.div_mod_to_equations. lia. }
  pose proof (dayOfYear_bounds doe Hdoe) as Hdoy. cbv zeta in Hdoy.
  set (yoe := (doe - doe / 1460 + doe / 36524 - doe / 146096) / 365) in *.
  set (doy := doe - (365 * yoe + yoe / 4 - yoe / 100)) in *.
  pose proof (monthIndex_bounds doy Hdoy) as Hmp.
  set (mp := (5 * doy + 2) / 153) in *.
  destruct (Z.ltb_spec mp 10); lia.
Qed.

(** [MakeDay] rebuilds a day from its own year, month and date. *)
Lemma MakeDay_of_day (z delta : Z) :
  MakeDay (YearFromDay z) (MonthFromDay z) (DateFromDay z + delta) = z + delta.
Proof.
  pose proof (MonthFromDay_bounds z) as Hm.
  pose proof (daysFromCivil_civilFromDays z) as Hrt.
  unfold MakeDay.
  rewrite Z.div_small, Z.mod_small, Z.add_0_r by lia.
  revert Hrt. unfold daysFromCivil.
  generalize (YearFromDay z) (MonthFromDay z + 1) (DateFromDay z).
  intros y m d. cbv zeta. lia.
Qed.

(** Dates of our era are not subject to the two-digit-year rule. *)
Lemma YearFromDay_after_epoch (z : Z) : 0 <= z -> 99 < YearFromDay z.
Proof.
  intros Hz. unfold YearFromDay, civilFromDays. cbn [fst snd].
  set (era := (z + 719468) / 146097).
  set (doe := z + 719468 - era * 146097).
  assert (Hdoe : 0 <= doe < 146097).
  { subst doe era. Z.div_mod_to_equations. lia. }
  assert (Hera : 4 <= era).
  { subst era. apply Z.div_le_lower_bound; lia. }
  pose proof (yearOfEra_bounds doe Hdoe) as Hyoe.
  set (yoe := (doe - doe / 1460 + doe / 36524 - doe / 146096) / 365) in *.
  match goal with |- context [if ?b then _ else _] => destruct b end; lia.
Qed.

Lemma day_time_split (t : Z) : Day t * msPerDay + TimeWithinDay t = t.
Proof.
  unfold Day, TimeWithinDay, msPerDay. Z.div_mod_to_equations. lia.
Qed.

(** Truncating a [Date] to local midnight, as the range helpers do. *)
Lemma newDate_truncates (tz t : Z) :
  0 <= LocalTime tz t ->
  newDate tz (getFullYear tz t) (getMonth tz t) (getDate tz t)
  = UTC tz (Day (LocalTime tz t) * msPerDay).
Proof.
  intros Ht. unfold newDate, getFullYear, getMonth, getDate.
  assert (Hday : 0 <= Day (LocalTime tz t)).
  { unfold Day, msPerDay. apply Z.div_pos; lia. }
  pose proof (YearFromDay_after_epoch _ Hday) as Hy.
  replace (YearFromDay (Day (LocalTime tz t)) <=? 99) with false
    by (symmetry; apply Z.leb_gt; lia).
  rewrite andb_false_r.
  pose proof (MakeDay_of_day (Day (LocalTime tz t)) 0) as Hmk.
  rewrite !Z.add_0_r in Hmk. now rewrite Hmk.
Qed.

(** [tempDate.setDate(tempDate.getDate() + 1)] advances by one day. *)
Lemma setDate_next_day (tz t : Z) :
  setDate tz t (getDate tz t + 1) = t + msPerDay.
Proof.
  unfold setDate, getFullYear, getMonth, getDate.
  rewrite MakeDay_of_day.
  pose proof (day_time_split (LocalTime tz t)) as Hsplit.
  unfold UTC, LocalTime in *. lia.
Qed.

(** ** The comparator sort *)

Section SortByKey.
Context {A : Type} (key : A -> Z).

Let cmp : A -> A -> Z := fun a b => key a - key b.
Let keyLe : A -> A -> Prop := fun a b => key a <= key b.
Let keyLt : A -> A -> Prop := fun a b => key a < key b.

Lemma insertSorted_perm (x : A) (l : list A) :
  Permutation (insertSorted cmp x l) (x :: l).
Proof.
  induction l as [|y ys IH]; cbn; [reflexivity|].
  destruct (cmp x y <=? 0); [reflexivity|].
  rewrite IH. apply perm_swap.
Qed.

Lemma arraySort_perm (l : list A) : Permutation (arraySort cmp l) l.
Proof.
  induction l as [|x xs IH]; cbn; [reflexivity|].
  rewrite insertSorted_perm. now apply perm_skip.
Qed.

Lemma arraySort_In (x : A) (l : list A) : In x (arraySort cmp l) <-> In x l.
Proof.
  split; apply Permutation_in; [|symmetry]; apply arraySort_perm.
Qed.

Lemma insertSorted_sorted (x : A) (l : list A) :
  StronglySorted keyLe l -> StronglySorted keyLe (insertSorted cmp x l).
Proof.
  induction 1 as [|y ys Hys IH Hall]; cbn.
  - repeat constructor.
  - destruct (Z.leb_spec (cmp x y) 0) as [Hle|Hgt]; unfold cmp, keyLe in *; cbn in *.
    + constructor; [now constructor|].
      constructor; [lia|].
      eapply Forall_impl; [exact Hall|]. cbn. intros; lia.
    + constructor; [exact IH|].
      eapply Permutation_Forall; [symmetry; apply insertSorted_perm|].
      constructor; [lia|exact Hall].
Qed.

Lemma arraySort_sorted (l : list A) : StronglySorted keyLe (arraySort cmp l).
Proof.
  induction l as [|x xs IH]; cbn; [constructor|].
  now apply insertSorted_sorted.
Qed.

(** Stability: elements with one key keep their relative input order. *)
Lemma insertSorted_ties (k : Z) (x : A) (l : list A) :
  List.filter (fun a => key a =? k) (insertSorted cmp x l)
  = List.filter (fun a => key a =? k) (x :: l).
Proof.
  induction l as [|y ys IH]; [reflexivity|].
  cbn [insertSorted].
  destruct (Z.leb_spec (cmp x y) 0) as [Hle|Hgt]; [reflexivity|].
  unfold cmp in *; cbn in Hgt. cbn [List.filter] in *. rewrite IH.
  destruct (Z.eqb_spec (key x) k), (Z.eqb_spec (key y) k); try reflexivity.
  lia.
Qed.

Lemma arraySort_ties (k : Z) (l : list A) :
  List.filter (fun a => key a =? k) (arraySort cmp l)
  = List.filter (fun a => key a =? k) l.
Proof.
  induction l as [|x xs IH]; [reflexivity|].
  cbn [arraySort foldr]. rewrite insertSorted_ties.
  cbn [List.filter]. fold (arraySort cmp xs). now rewrite IH.
Qed.

Lemma sorted_distinct_strict (l : list A) :
  StronglySorted keyLe l -> List.NoDup (map key l) -> StronglySorted keyLt l.
Proof.
  induction 1 as [|x xs Hxs IH Hall]; intros Hnd; [constructor|].
  cbn in Hnd. apply List.NoDup_cons_iff in Hnd as [Hnotin Hnd].
  constructor; [now apply IH|].
  rewrite List.Forall_forall in *. intros y Hy.
  pose proof (Hall y Hy) as Hle. unfold keyLe, keyLt in *; cbn in *.
  assert (key x <> key y); [|lia].
  intros Heq. apply Hnotin. rewrite Heq. now apply in_map.
Qed.

Lemma strict_sorted_unique (l1 l2 : list A) :
  StronglySorted keyLt l1 -> StronglySorted keyLt l2 ->
  Permutation l1 l2 -> l1 = l2.
Proof.
  intros Hs1. revert l2.
  induction Hs1 as [|x xs Hxs IH Hx]; intros l2 Hs2 Hperm.
  - now apply Permutation_nil in Hperm.
  - destruct Hs2 as [|y ys Hys Hy].
    + symmetry in Hperm. now apply Permutation_nil in Hperm.
    + assert (Hxy : x = y).
      { assert (Hin1 : In x (y :: ys))
          by (eapply Permutation_in; [exact Hperm|now left]).
        assert (Hin2 : In y (x :: xs))
          by (eapply Permutation_in; [symmetry; exact Hperm|now left]).
        destruct Hin1 as [->|Hin1]; [reflexivity|].
        destruct Hin2 as [->|Hin2]; [reflexivity|].
        rewrite List.Forall_forall in Hx, Hy.
        pose proof (Hx y Hin2). pose proof (Hy x Hin1).
        unfold keyLt in *; cbn in *. lia. }
      subst y. f_equal. apply IH; [exact Hys|].
      eapply Permutation_cons_inv; exact Hperm.
Qed.

(** With pairwise distinct keys the sorted array does not depend on the
    order of the input. *)
Lemma arraySort_perm_invariant (l1 l2 : list A) :
  Permutation l1 l2 -> List.NoDup (map key l1) ->
  arraySort cmp l1 = arraySort cmp l2.
Proof.
  intros Hperm Hnd.
  assert (Hp1 := arraySort_perm l1). assert (Hp2 := arraySort_perm l2).
  apply strict_sorted_unique.
  - apply sorted_distinct_strict; [apply arraySort_sorted|].
    eapply Permutation_NoDup; [|exact Hnd].
    apply Permutation_map. now symmetry.
  - apply sorted_distinct_strict; [apply arraySort_sorted|].
    eapply Permutation_NoDup; [|exact Hnd].
    apply Permutation_map. rewrite Hp2. exact Hperm.
  - rewrite Hp1, Hp2. exact Hperm.
Qed.

End SortByKey.

Lemma filter_perm {A} (f : A -> bool) (l1 l2 : list A) :
  Permutation l1 l2 -> Permutation (List.filter f l1) (List.filter f l2).
Proof.
  induction 1 as [|x l1 l2 _ IH|x y l|l1 l2 l3 _ IH1 _ IH2]; cbn.
  - reflexivity.
  - destruct (f x); [now apply perm_skip|exact IH].
  - destruct (f x), (f y); try reflexivity. apply perm_swap.
  - now rewrite IH1.
Qed.

(** ** The two day views agree *)

Lemma keepEntry_matchesSelectedDate (tz selected : Z) (entry : Entry) :
  ShareView.keepEntry tz selected entry = App.matchesSelectedDate tz selected entry.
Proof.
  unfold ShareView.keepEntry, App.matchesSelectedDate,
    App.isDateWithinRecurrenceRange.
  cbv zeta. now destruct (_ && _).
Qed.

Lemma filteredEntries_spec (tz selected : Z) (entries : list Entry) :
  ShareView.filteredEntries tz selected entries
  = arraySort byStartTime
      (List.filter (App.matchesSelectedDate tz selected) entries).
Proof.
  unfold ShareView.filteredEntries. f_equal.
  apply List.filter_ext. intros e. apply keepEntry_matchesSelectedDate.
Qed.

(** The [forEach] loop appends the matching entries in snapshot order. *)
Lemma forEach_entriesForSelectedDate (tz currentMonth selected : Z)
  (entries : list Entry) (dates0 dates : gmap Z string) (acc occ : list Entry) :
  forEach (App.forEachBody tz currentMonth selected) entries (dates0, acc)
  = Normal (dates, occ) ->
  occ = (acc ++ List.filter (App.matchesSelectedDate tz selected) entries)%list.
Proof.
  revert dates0 acc.
  induction entries as [|e es IH]; intros dates0 acc Hrun; cbn [forEach] in Hrun.
  - inversion Hrun; subst. now rewrite app_nil_r.
  - destruct (App.forEachBody tz currentMonth selected (dates0, acc) e)
      as [[d acc']|err] eqn:Hbody; cbn in Hrun; [|discriminate].
    apply IH in Hrun. rewrite Hrun. cbn [List.filter].
    unfold App.forEachBody in Hbody. cbn [fst snd] in Hbody.
    destruct (App.populateMonth tz currentMonth e dates0) as [d'|err];
      cbn in Hbody; [|discriminate].
    inversion Hbody; subst.
    destruct (App.matchesSelectedDate tz selected e); [|reflexivity].
    now rewrite <- app_assoc.
Qed.

Lemma onSchedulesSnapshot_entries (tz currentMonth selected : Z)
  (entries : list Entry) (dates : gmap Z string) (occ : list Entry) :
  App.onSchedulesSnapshot tz currentMonth selected entries = Normal (dates, occ) ->
  occ = ShareView.filteredEntries tz selected entries.
Proof.
  unfold App.onSchedulesSnapshot. intros Hrun.
  destruct (forEach _ entries (∅, [])) as [[d acc]|err] eqn:Hloop;
    cbn in Hrun; [|discriminate].
  inversion Hrun; subst; clear Hrun.
  apply forEach_entriesForSelectedDate in Hloop. cbn [app] in Hloop.
  rewrite Hloop. symmetry. apply filteredEntries_spec.
Qed.

Lemma OccurrenceList_spec (tz selected : Z) (entries occ : list Entry) :
  OccurrenceList tz selected entries occ ->
  occ = arraySort byStartTime
          (List.filter (App.matchesSelectedDate tz selected) entries).
Proof.
  intros [->|(cm & dates & Hrun)].
  - apply filteredEntries_spec.
  - apply onSchedulesSnapshot_entries in Hrun. subst occ.
    apply filteredEntries_spec.
Qed.

(** ** The day loop of the month view terminates on its own condition *)

Lemma dayLoop_enough_fuel (tz currentMonth : Z) (entry : Entry) (n k : nat) :
  forall (tempDate : Z) (dates : gmap Z string),
  App.currentMonthEndDate tz currentMonth < tempDate + Z.of_nat n * msPerDay ->
  App.dayLoop tz currentMonth (n + k) entry tempDate dates
  = App.dayLoop tz currentMonth n entry tempDate dates.
Proof.
  induction n as [|n IH]; intros tempDate dates Hend.
  - destruct k as [|k]; [reflexivity|]. cbn.
    destruct (Z.leb_spec tempDate (App.currentMonthEndDate tz currentMonth));
      [lia|reflexivity].
  - cbn [Nat.add App.dayLoop].
    destruct (tempDate <=? App.currentMonthEndDate tz currentMonth);
      [|reflexivity].
    destruct (App.firesOn tz entry tempDate) as [fires|err]; [|reflexivity].
    cbn. rewrite setDate_next_day. apply IH. lia.
Qed.

Lemma dayLoopFuel_enough (tz currentMonth : Z) :
  App.currentMonthEndDate tz currentMonth
  < App.currentMonthStartDate tz currentMonth
    + Z.of_nat (App.dayLoopFuel tz currentMonth) * msPerDay.
Proof.
  unfold App.dayLoopFuel.
  set (first := App.currentMonthStartDate tz currentMonth).
  set (last := App.currentMonthEndDate tz currentMonth).
  rewrite Nat2Z.inj_succ.
  destruct (Z.le_gt_cases 0 ((last - first) / msPerDay)) as [Hpos|Hneg].
  - rewrite Z2Nat.id by exact Hpos. unfold msPerDay in *.
    Z.div_mod_to_equations. lia.
  - replace (Z.to_nat ((last - first) / msPerDay)) with 0%nat by lia.
    unfold msPerDay in *.
    Z.div_mod_to_equations. lia.
Qed.

(** More fuel than [dayLoopFuel] never changes what the loop computes. *)
Lemma dayLoop_fuel_irrelevant (tz currentMonth : Z) (entry : Entry) (k : nat)
  (dates : gmap Z string) :
  App.dayLoop tz currentMonth (App.dayLoopFuel tz currentMonth + k) entry
    (App.currentMonthStartDate tz currentMonth) dates
  = App.dayLoop tz currentMonth (App.dayLoopFuel tz currentMonth) entry
      (App.currentMonthStartDate tz currentMonth) dates.
Proof.
  apply dayLoop_enough_fuel, dayLoopFuel_enough.
Qed.

(** ** The snapshot callback returns on records that carry their weekday list *)

Lemma firesOn_returns (tz : Z) (entry : Entry) (tempDate : Z) :
  is_Some (recurrenceDays entry) ->
  exists fires, App.firesOn tz entry tempDate = Normal fires.
Proof.
  intros [days Hdays]. unfold App.firesOn. rewrite Hdays.
  destruct (negb _); [eauto|].
  destruct (String.eqb _ "daily"); [eauto|].
  destruct (negb _); eauto.
Qed.

Lemma dayLoop_returns (tz currentMonth : Z) (entry : Entry) (fuel : nat) :
  is_Some (recurrenceDays entry) ->
  forall tempDate dates,
  exists dates', App.dayLoop tz currentMonth fuel entry tempDate dates = Normal dates'.
Proof.
  intros Hdays. induction fuel as [|fuel IH]; intros tempDate dates; cbn.
  - eauto.
  - destruct (tempDate <=? _); [|eauto].
    destruct (firesOn_returns tz entry tempDate Hdays) as [fires ->]. cbn.
    apply IH.
Qed.

Lemma populateMonth_returns (tz currentMonth : Z) (entry : Entry)
  (dates : gmap Z string) :
  is_Some (recurrenceDays entry) ->
  exists dates', App.populateMonth tz currentMonth entry dates = Normal dates'.
Proof.
  intros Hdays. unfold App.populateMonth.
  destruct (App.isRelevantForMonth _ _ _); [|eauto].
  destruct (String.eqb _ "none").
  - destruct (App.dateInCurrentMonth _ _ _); eauto.
  - now apply dayLoop_returns.
Qed.

Lemma forEach_returns (tz currentMonth selected : Z) (entries : list Entry) :
  Forall (fun e : Entry => is_Some (recurrenceDays e)) entries ->
  forall st, exists st',
    forEach (App.forEachBody tz currentMonth selected) entries st = Normal st'.
Proof.
  induction 1 as [|e es He _ IH]; intros st; cbn [forEach].
  - eauto.
  - destruct (populateMonth_returns tz currentMonth e (fst st) He) as [d Hd].
    assert (Hbody : exists st1,
               App.forEachBody tz currentMonth selected st e = Normal st1).
    { unfold App.forEachBody. rewrite Hd. cbn. eauto. }
    destruct Hbody as [st1 ->]. cbn. apply IH.
Qed.

Lemma onSchedulesSnapshot_returns (tz currentMonth selected : Z)
  (entries : list Entry) :
  Forall (fun e : Entry => is_Some (recurrenceDays e)) entries ->
  exists dates,
    App.onSchedulesSnapshot tz currentMonth selected entries
    = Normal (dates, ShareView.filteredEntries tz selected entries).
Proof.
  intros Hwf.
  destruct (forEach_returns tz currentMonth selected entries Hwf (∅, []))
    as [[dates acc] Hloop].
  assert (Hrun : App.onSchedulesSnapshot tz currentMonth selected entries
                 = Normal (dates, arraySort byStartTime acc)).
  { unfold App.onSchedulesSnapshot. now rewrite Hloop. }
  exists dates. rewrite Hrun. f_equal. f_equal.
  now apply onSchedulesSnapshot_entries in Hrun.
Qed.

(** ** The recurrence window test, by time zone *)

(** After 1970 and for an offset of less than a day, the test compares
    the local calendar day [Day (LocalTime tz d)] with the window bounds;
    east of UTC the start bound is strict, west of UTC the end bound is. *)
Lemma isDateWithinRecurrenceRange_zone (tz : Z) (entry : Entry) (d : Z) :
  0 <= LocalTime tz d -> -1440 < tz < 1440 ->
  App.isDateWithinRecurrenceRange tz entry d
  = nullOr (recurrenceStartDate entry)
      (fun s => if 0 <? tz then s <? Day (LocalTime tz d)
                else s <=? Day (LocalTime tz d))
    && nullOr (recurrenceEndDate entry)
         (fun e => if tz <? 0 then Day (LocalTime tz d) <? e
                   else Day (LocalTime tz d) <=? e).
Proof.
  intros Hd Htz. unfold App.isDateWithinRecurrenceRange.
  rewrite newDate_truncates by exact Hd.
  set (day := Day (LocalTime tz d)).
  unfold entryStartDate, entryEndDate, parseDateOnly, UTC, msPerDay, msPerMinute.
  f_equal.
  - destruct (recurrenceStartDate entry) as [s|]; [cbn|reflexivity].
    destruct (Z.ltb_spec 0 tz).
    + destruct (Z.leb_spec (s * 86400000) (day * 86400000 - tz * 60000)),
        (Z.ltb_spec s day); (reflexivity || lia).
    + destruct (Z.leb_spec (s * 86400000) (day * 86400000 - tz * 60000)),
        (Z.leb_spec s day); (reflexivity || lia).
  - destruct (recurrenceEndDate entry) as [e|]; [cbn|reflexivity].
    destruct (Z.ltb_spec tz 0).
    + destruct (Z.leb_spec (day * 86400000 - tz * 60000) (e * 86400000)),
        (Z.ltb_spec day e); (reflexivity || lia).
    + destruct (Z.leb_spec (day * 86400000 - tz * 60000) (e * 86400000)),
        (Z.leb_spec day e); (reflexivity || lia).
Qed.

(** In a browser whose zone is UTC the window is inclusive at both ends. *)
Lemma isDateWithinRecurrenceRange_utc (entry : Entry) (d : Z) :
  0 <= d ->
  App.isDateWithinRecurrenceRange 0 entry d
  = nullOr (recurrenceStartDate entry) (fun s => s <=? Day d)
    && nullOr (recurrenceEndDate entry) (fun e => Day d <=? e).
Proof.
  intros Hd.
  assert (Hlocal : LocalTime 0 d = d) by (unfold LocalTime; lia).
  rewrite isDateWithinRecurrenceRange_zone by (rewrite ?Hlocal; lia).
  now rewrite Hlocal.
Qed.

Lemma nullOr_true (bound : option Z) (p : Z -> bool) :
  nullOr bound p = true <-> forall b, bound = Some b -> p b = true.
Proof.
  destruct bound as [b|]; cbn.
  - split; [now intros Hp b' [= <-]|auto].
  - split; [discriminate|reflexivity].
Qed.

Lemma includes_In (arr : list Z) (x : Z) : includes arr x = true <-> In x arr.
Proof.
  unfold includes. rewrite existsb_exists. split.
  - intros (y & Hin & Heq). apply Z.eqb_eq in Heq. now subst y.
  - intros Hin. exists x. split; [exact Hin|apply Z.eqb_refl].
Qed.

Lemma window_utc (entry : Entry) (d : Z) :
  0 <= d ->
  App.isDateWithinRecurrenceRange 0 entry d = true <->
  (forall s, recurrenceStartDate entry = Some s -> s <= Day d) /\
  (forall e, recurrenceEndDate entry = Some e -> Day d <= e).
Proof.
  intros Hd. rewrite isDateWithinRecurrenceRange_utc by exact Hd.
  rewrite andb_true_iff, !nullOr_true.
  split; intros [Hs He]; split; intros b Hb.
  - apply Z.leb_le. now apply Hs.
  - apply Z.leb_le. now apply He.
  - apply Z.leb_le. now apply Hs.
  - apply Z.leb_le. now apply He.
Qed.

(** X20. In UTC a daily entry matches exactly the days of its inclusive
    window, an absent bound leaving that side open. *)
Lemma daily_matches_utc (entry : Entry) (d : Z) :
  0 <= d -> recurrenceType entry = "daily" ->
  App.matchesSelectedDate 0 d entry = true <->
  (forall s, recurrenceStartDate entry = Some s -> s <= Day d) /\
  (forall e, recurrenceEndDate entry = Some e -> Day d <= e).
Proof.
  intros Hd Htype. rewrite <- window_utc by exact Hd.
  unfold App.matchesSelectedDate. rewrite Htype. cbn.
  now destruct (App.isDateWithinRecurrenceRange 0 entry d).
Qed.

(** X21. In UTC a weekly entry matches exactly the days of its inclusive
    window whose weekday is in its weekday list. *)
Lemma weekly_matches_utc (entry : Entry) (d : Z) (days : list Z) :
  0 <= d -> recurrenceType entry = "weekly" ->
  recurrenceDays entry = Some days ->
  App.matchesSelectedDate 0 d entry = true <->
  ((forall s, recurrenceStartDate entry = Some s -> s <= Day d) /\
   (forall e, recurrenceEndDate entry = Some e -> Day d <= e)) /\
  In (getDay 0 d) days.
Proof.
  intros Hd Htype Hdays. rewrite <- window_utc by exact Hd.
  rewrite <- includes_In.
  unfold App.matchesSelectedDate. rewrite Htype, Hdays. cbn.
  destruct (App.isDateWithinRecurrenceRange 0 entry d); [tauto|].
  split; [discriminate|now intros [[=] _]].
Qed.

(** ** The creation handler *)

Lemma checkRecurrence_message (st : App.State) (message : string) :
  App.checkRecurrence st = Some message -> message <> "".
Proof.
  unfold App.checkRecurrence.
  destruct (negb _); [|discriminate].
  destruct (App.newScheduleRecurrenceStartDate st) as [s|];
    [|intros [= <-]; discriminate].
  destruct (match App.newScheduleRecurrenceEndDate st with
            | Some _ => _ | None => _ end); [intros [= <-]; discriminate|].
  destruct (_ && _); [intros [= <-]; discriminate|discriminate].
Qed.

(** The handler's checks accept exactly the documents that satisfy the
    creation-time constraints. *)
Lemma newScheduleDoc_valid (now : Z) (st : App.State)
  (selected startLocal endLocal : Z) (activity : Activity) (uid : string) :
  validScheduleDoc
    (App.newScheduleDoc now st selected startLocal endLocal activity uid)
  <-> startLocal < endLocal /\ App.checkRecurrence st = None.
Proof.
  unfold validScheduleDoc, App.newScheduleDoc, App.checkRecurrence. cbn.
  destruct (String.eqb_spec (App.newScheduleRecurrenceType st) "none")
    as [Hnone|Hrec]; cbn.
  { rewrite Hnone. cbn. split; intros (Hlt & _);
      repeat split; try congruence; try discriminate. }
  destruct (App.newScheduleRecurrenceStartDate st) as [s|].
  2: { split; [|intros (_ & [=])].
       intros (_ & Hstart & _). destruct (Hstart Hrec) as [? [=]]. }
  assert (Hwindow :
    match App.newScheduleRecurrenceEndDate st with
    | Some e => parseDateOnly e <? parseDateOnly s
    | None => false
    end = false <->
    forall s' e', Some s = Some s' ->
                  App.newScheduleRecurrenceEndDate st = Some e' -> s' <= e').
  { destruct (App.newScheduleRecurrenceEndDate st) as [e|].
    - unfold parseDateOnly, msPerDay. rewrite Z.ltb_ge. split.
      + intros Hle s' e' [= <-] [= <-]. lia.
      + intros Hle. specialize (Hle s e eq_refl eq_refl). lia.
    - split; [discriminate|reflexivity]. }
  destruct (match App.newScheduleRecurrenceEndDate st with
            | Some _ => _ | None => _ end).
  { split; [|intros (_ & [=])].
    intros (_ & _ & Hwin & _). now apply Hwindow in Hwin. }
  assert (Hwin : forall s' e', Some s = Some s' ->
            App.newScheduleRecurrenceEndDate st = Some e' -> s' <= e')
    by now apply Hwindow.
  destruct (String.eqb_spec (App.newScheduleRecurrenceType st) "weekly")
    as [Hweekly|Hother]; cbn.
  - destruct (App.newScheduleRecurrenceDays st) as [|d ds]; cbn.
    + split; [|intros (_ & [=])].
      intros (_ & _ & _ & Hdays). now destruct (Hdays Hweekly).
    + split; intros (Hlt & _); repeat split; eauto; discriminate.
  - split; intros (Hlt & _); repeat split; eauto; contradiction.
Qed.

(** What must have held for the handler to reach [addDoc]. *)
Lemma handleAddScheduleEntry_AddDoc (tz now : Z) (st : App.State)
  (p : ScheduleDoc) :
  App.handleAddScheduleEntry tz now st = App.AddDoc p ->
  exists selected startTime endTime activity uid,
    App.selectedDate st = Some selected /\
    parseLocalDateTime tz (toISODate selected) startTime
    < parseLocalDateTime tz (toISODate selected) endTime /\
    App.checkRecurrence st = None /\
    p = App.newScheduleDoc now st selected
          (parseLocalDateTime tz (toISODate selected) startTime)
          (parseLocalDateTime tz (toISODate selected) endTime) activity uid.
Proof.
  unfold App.handleAddScheduleEntry.
  destruct (App.selectedDate st) as [selected|]; [|discriminate].
  destruct (App.newScheduleStartTime st) as [startTime|]; [|discriminate].
  destruct (App.newScheduleEndTime st) as [endTime|]; [|discriminate].
  destruct (String.eqb _ ""); [discriminate|].
  destruct (Z.leb_spec (parseLocalDateTime tz (toISODate selected) endTime)
              (parseLocalDateTime tz (toISODate selected) startTime));
    [discriminate|].
  destruct (App.checkRecurrence st) eqn:Hcheck; [discriminate|].
  destruct (List.find _ _) as [activity|]; [|discriminate].
  destruct (App.db st); [|discriminate].
  destruct (App.userId st) as [uid|]; [|discriminate].
  intros [= <-]. exists selected, startTime, endTime, activity, uid.
  repeat split; auto.
Qed.

(** * The claims *)

(** ** Month indicator map *)

(** C1. The month map does not list every date with a matching entry: the
    daily entry running from 2024-03-10 to 2024-03-20 is shown in the day
    view of 2024-03-15 (browser in UTC), yet the map built for March 2024
    by the same callback run is empty, because [isRelevantForMonth] is
    false for a window lying strictly inside the month. *)
Theorem month_map_misses_window_inside_month :
  App.isRelevantForMonth 0 (newDate 0 2024 2 1) dailyMidMarch = false /\
  App.onSchedulesSnapshot 0 (newDate 0 2024 2 1) (newDate 0 2024 2 15)
    [dailyMidMarch]
  = Normal (∅, [dailyMidMarch]).
Proof.
  split; vm_compute; reflexivity.
Qed.

(** ** Order of the occurrence list *)

(** C2, as stated, fails: two matching entries with the same start instant
    are listed in snapshot order, here identifier "b" before "a". *)
Lemma tied_entries_not_in_identifier_order :
  OccurrenceList 0 (newDate 0 2024 2 10) [oneTimeB; oneTimeA]
    [oneTimeB; oneTimeA] /\
  (exists dates,
     App.onSchedulesSnapshot 0 (newDate 0 2024 2 1) (newDate 0 2024 2 10)
       [oneTimeB; oneTimeA]
     = Normal (dates, [oneTimeB; oneTimeA])) /\
  ~ StronglySorted startThenIdOrder [oneTimeB; oneTimeA].
Proof.
  split; [left; vm_compute; reflexivity|].
  split; [eexists; vm_compute; reflexivity|].
  intros Hsorted. inversion Hsorted as [|? ? _ Hall]; subst.
  inversion Hall as [|? ? Hhead _]; subst.
  destruct Hhead as [Hlt|[_ Hid]].
  - vm_compute in Hlt. discriminate.
  - vm_compute in Hid. discriminate.
Qed.

(** C2, amended. The occurrence list of a date is sorted non-decreasing by
    UTC start instant, and the entries sharing one start instant appear in
    the order they have in the entry collection. *)
Theorem occurrences_sorted_ties_in_input_order (tz selected : Z)
  (entries occ : list Entry) :
  OccurrenceList tz selected entries occ ->
  StronglySorted startsNoLater occ /\
  forall t,
    List.filter (fun e : Entry => startDateTimeUTC e =? t) occ
    = List.filter (fun e : Entry => startDateTimeUTC e =? t)
        (List.filter (App.matchesSelectedDate tz selected) entries).
Proof.
  intros Hocc. apply OccurrenceList_spec in Hocc. subst occ. split.
  - apply (arraySort_sorted (fun e : Entry => startDateTimeUTC e)).
  - intros t. apply (arraySort_ties (fun e : Entry => startDateTimeUTC e)).
Qed.

Lemma occurrences_sorted_ties_in_input_order_witness :
  OccurrenceList 0 (newDate 0 2024 2 10) [oneTimeB; oneTimeEarly; oneTimeA]
    [oneTimeEarly; oneTimeB; oneTimeA] /\
  StronglySorted startsNoLater [oneTimeEarly; oneTimeB; oneTimeA].
Proof.
  assert (Hocc : OccurrenceList 0 (newDate 0 2024 2 10)
                   [oneTimeB; oneTimeEarly; oneTimeA]
                   [oneTimeEarly; oneTimeB; oneTimeA])
    by (left; vm_compute; reflexivity).
  split; [exact Hocc|].
  exact (proj1 (occurrences_sorted_ties_in_input_order 0 (newDate 0 2024 2 10)
                  [oneTimeB; oneTimeEarly; oneTimeA]
                  [oneTimeEarly; oneTimeB; oneTimeA] Hocc)).
Defined.

(** C3, as stated, fails: two fetch orders of the same two entries give
    two different occurrence lists. *)
Lemma tied_entries_follow_fetch_order :
  Permutation [oneTimeA; oneTimeB] [oneTimeB; oneTimeA] /\
  ShareView.filteredEntries 0 (newDate 0 2024 2 10) [oneTimeA; oneTimeB]
  <> ShareView.filteredEntries 0 (newDate 0 2024 2 10) [oneTimeB; oneTimeA].
Proof.
  split; [apply perm_swap|].
  vm_compute. discriminate.
Qed.

(** C3, amended. The occurrence list of a date is a function of the entry
    collection, the same in both views; over two permutations of the
    collection it is the same sequence when the matching entries have
    pairwise distinct start instants. *)
Theorem occurrences_independent_of_fetch_order (tz selected : Z)
  (entries1 entries2 occ1 occ2 : list Entry) :
  Permutation entries1 entries2 ->
  entries1 = entries2 \/
  List.NoDup (map (fun e : Entry => startDateTimeUTC e)
                (List.filter (App.matchesSelectedDate tz selected) entries1)) ->
  OccurrenceList tz selected entries1 occ1 ->
  OccurrenceList tz selected entries2 occ2 ->
  occ1 = occ2.
Proof.
  intros Hperm Hcase Hocc1 Hocc2.
  apply OccurrenceList_spec in Hocc1, Hocc2. subst occ1 occ2.
  destruct Hcase as [->|Hdistinct]; [reflexivity|].
  apply (arraySort_perm_invariant (fun e : Entry => startDateTimeUTC e));
    [|exact Hdistinct].
  now apply filter_perm.
Qed.

Lemma occurrences_independent_of_fetch_order_witness :
  ShareView.filteredEntries 0 (newDate 0 2024 2 10) [oneTimeA; oneTimeEarly]
  = ShareView.filteredEntries 0 (newDate 0 2024 2 10) [oneTimeEarly; oneTimeA].
Proof.
  apply (occurrences_independent_of_fetch_order 0 (newDate 0 2024 2 10)
           [oneTimeA; oneTimeEarly] [oneTimeEarly; oneTimeA]).
  - apply perm_swap.
  - right. vm_compute.
    repeat constructor; cbn; intuition discriminate.
  - now left.
  - now left.
Defined.

(** ** Matching one entry against one date *)

(** C4. Off UTC the daily window loses a bound.  In a browser one hour
    east of UTC the entry running daily from 2024-03-10 to 2024-03-20 is
    not shown on its start date, in either view; five hours west of UTC it
    is not shown on its end date.  In UTC both dates are shown. *)
Theorem daily_window_loses_a_bound_off_utc :
  App.matchesSelectedDate 60 (newDate 60 2024 2 10) dailyMidMarch = false /\
  ShareView.keepEntry 60 (parseDateOnly (isoDate 2024 3 10)) dailyMidMarch
  = false /\
  App.matchesSelectedDate (-300) (newDate (-300) 2024 2 20) dailyMidMarch
  = false /\
  App.matchesSelectedDate 0 (newDate 0 2024 2 10) dailyMidMarch = true /\
  App.matchesSelectedDate 0 (newDate 0 2024 2 20) dailyMidMarch = true.
Proof.
  repeat split; vm_compute; reflexivity.
Qed.

(** C5. The window fields of a one-time record are not ignored by the day
    filters.  The record of type ['none'] dated 2024-03-10 whose window
    starts on 2024-03-15 is left out of the day list of 2024-03-10 by the
    owner's filter and by the shared view's (browser in UTC), while the
    month map built by the same callback run, which does not look at the
    window of a ['none'] record, marks 2024-03-10 with its colour: the
    calendar shows a dot on a day whose list is empty. *)
Theorem one_time_window_hides_entry_under_its_dot :
  recurrenceType oneTimeWindowed = "none" /\
  date oneTimeWindowed = toISODate (newDate 0 2024 2 10) /\
  App.matchesSelectedDate 0 (newDate 0 2024 2 10) oneTimeWindowed = false /\
  ShareView.filteredEntries 0 (newDate 0 2024 2 10) [oneTimeWindowed] = [] /\
  App.onSchedulesSnapshot 0 (newDate 0 2024 2 1) (newDate 0 2024 2 10)
    [oneTimeWindowed]
  = Normal (<[date oneTimeWindowed := activityColor oneTimeWindowed]> ∅, []) /\
  App.matchesSelectedDate 0 (newDate 0 2024 2 10) oneTimeA = true.
Proof.
  repeat split; vm_compute; reflexivity.
Qed.

(** C6. Off UTC the weekly window loses a bound as well.  One hour east of
    UTC the entry recurring on Sundays from Sunday 2024-03-10 is not shown
    on that Sunday, although the weekday of the selected date is in its
    weekday list; five hours west of UTC it is not shown on Sunday
    2024-03-24, its end date.  In UTC both Sundays are shown. *)
Theorem weekly_window_loses_a_bound_off_utc :
  getDay 60 (newDate 60 2024 2 10) = 0 /\
  App.matchesSelectedDate 60 (newDate 60 2024 2 10) weeklySundays = false /\
  ShareView.keepEntry 60 (parseDateOnly (isoDate 2024 3 10)) weeklySundays
  = false /\
  getDay (-300) (newDate (-300) 2024 2 24) = 0 /\
  App.matchesSelectedDate (-300) (newDate (-300) 2024 2 24) weeklySundays
  = false /\
  App.matchesSelectedDate 0 (newDate 0 2024 2 10) weeklySundays = true /\
  App.matchesSelectedDate 0 (newDate 0 2024 2 24) weeklySundays = true.
Proof.
  repeat split; vm_compute; reflexivity.
Qed.

(** C9. In the day view a ['weekly'] entry whose [recurrenceDays] is
    missing or empty matches no date: both filters answer [false] (they
    are total, nothing is raised) and the entry is in no occurrence
    list. *)
Theorem weekly_without_days_never_listed (tz selected : Z) (entry : Entry) :
  recurrenceType entry = "weekly" ->
  recurrenceDays entry = None \/ recurrenceDays entry = Some [] ->
  App.matchesSelectedDate tz selected entry = false /\
  ShareView.keepEntry tz selected entry = false /\
  forall entries occ,
    OccurrenceList tz selected entries occ -> ~ In entry occ.
Proof.
  intros Htype Hdays.
  assert (Hno : App.matchesSelectedDate tz selected entry = false).
  { unfold App.matchesSelectedDate. rewrite Htype. cbn.
    destruct (App.isDateWithinRecurrenceRange tz entry selected);
      [|reflexivity].
    destruct Hdays as [->| ->]; reflexivity. }
  split; [exact Hno|]. split.
  - now rewrite keepEntry_matchesSelectedDate.
  - intros entries occ Hocc Hin.
    apply OccurrenceList_spec in Hocc. subst occ.
    apply (proj1 (arraySort_In (fun e : Entry => startDateTimeUTC e) entry _))
      in Hin.
    apply List.filter_In in Hin as [_ Hyes]. congruence.
Qed.

Lemma weekly_without_days_never_listed_witness :
  recurrenceType weeklyNoDays = "weekly" /\
  recurrenceDays weeklyNoDays = None /\
  App.matchesSelectedDate 0 (newDate 0 2024 2 11) weeklyNoDays = false.
Proof.
  split; [reflexivity|]. split; [reflexivity|].
  exact (proj1 (weekly_without_days_never_listed 0 (newDate 0 2024 2 11)
                  weeklyNoDays eq_refl (or_introl eq_refl))).
Defined.

(** ** Malformed records *)

(** C8. A record fetched without [recurrenceDays] aborts the owner's whole
    snapshot callback: the month loop calls [includes] on the missing
    field, so neither the month map nor the day list is delivered and the
    well-formed one-time entry next to it is not resolved.  The shared
    view, whose filter guards the field, skips the record and lists the
    other entry. *)
Theorem malformed_record_aborts_snapshot :
  App.onSchedulesSnapshot 0 (newDate 0 2024 2 1) (newDate 0 2024 2 10)
    [weeklyNoDays; oneTimeA]
  = Throw TypeError /\
  ShareView.filteredEntries 0 (newDate 0 2024 2 10) [weeklyNoDays; oneTimeA]
  = [oneTimeA].
Proof.
  split; vm_compute; reflexivity.
Qed.

(** ** Creation-time validation *)

(** C7. With a date, an activity and both times entered, let [p] be the
    document the handler would store.  If [p] breaks one of the four
    constraints (start before end; a recurrence start date when it
    repeats; window start not after window end; a weekday when weekly),
    the handler reports a non-empty error message and stores nothing.
    Otherwise it goes past validation: to the activity lookup and, the
    activity found and the user signed in, to [addDoc] with [p].  No
    document breaking a constraint ever reaches [addDoc]. *)
Theorem handleAddScheduleEntry_validates (tz now : Z) (st : App.State)
  (selected startTime endTime : Z) :
  App.selectedDate st = Some selected ->
  App.newScheduleStartTime st = Some startTime ->
  App.newScheduleEndTime st = Some endTime ->
  App.newScheduleActivityId st <> "" ->
  let doc := App.newScheduleDoc now st selected
               (parseLocalDateTime tz (toISODate selected) startTime)
               (parseLocalDateTime tz (toISODate selected) endTime) in
  (forall activity uid,
     ~ validScheduleDoc (doc activity uid) ->
     exists message,
       message <> "" /\
       App.handleAddScheduleEntry tz now st = App.SetError message) /\
  (forall activity uid,
     validScheduleDoc (doc activity uid) ->
     App.handleAddScheduleEntry tz now st
     = match List.find (fun item =>
                String.eqb (itemId item) (App.newScheduleActivityId st))
              (App.activityItems st) with
       | None => App.SetError "Selected activity not found."
       | Some selectedActivity =>
           match App.db st, App.userId st with
           | true, Some u => App.AddDoc (doc selectedActivity u)
           | _, _ => App.NoEffect
           end
       end) /\
  (forall stored,
     App.handleAddScheduleEntry tz now st = App.AddDoc stored ->
     validScheduleDoc stored).
Proof.
  intros Hsel Hstart Hend Hact doc.
  assert (Hrun : App.handleAddScheduleEntry tz now st
    = if parseLocalDateTime tz (toISODate selected) endTime
         <=? parseLocalDateTime tz (toISODate selected) startTime
      then App.SetError "End time must be after start time."
      else match App.checkRecurrence st with
           | Some message => App.SetError message
           | None =>
               match List.find (fun item =>
                        String.eqb (itemId item) (App.newScheduleActivityId st))
                      (App.activityItems st) with
               | None => App.SetError "Selected activity not found."
               | Some selectedActivity =>
                   match App.db st, App.userId st with
                   | true, Some u => App.AddDoc (doc selectedActivity u)
                   | _, _ => App.NoEffect
                   end
               end
           end).
  { unfold App.handleAddScheduleEntry. rewrite Hsel, Hstart, Hend.
    apply String.eqb_neq in Hact. now rewrite Hact. }
  split; [|split].
  - intros activity uid Hinvalid. rewrite Hrun.
    destruct (Z.leb_spec (parseLocalDateTime tz (toISODate selected) endTime)
                (parseLocalDateTime tz (toISODate selected) startTime))
      as [Hle|Hlt].
    + eexists. split; [|reflexivity]. discriminate.
    + destruct (App.checkRecurrence st) as [message|] eqn:Hcheck.
      * exists message. split; [|reflexivity].
        now apply checkRecurrence_message in Hcheck.
      * exfalso. apply Hinvalid. apply newScheduleDoc_valid. now split.
  - intros activity uid Hvalid. rewrite Hrun.
    apply newScheduleDoc_valid in Hvalid as [Hlt Hcheck].
    rewrite Hcheck.
    destruct (Z.leb_spec (parseLocalDateTime tz (toISODate selected) endTime)
                (parseLocalDateTime tz (toISODate selected) startTime));
      [lia|reflexivity].
  - intros stored Hadd.
    apply handleAddScheduleEntry_AddDoc in Hadd
      as (sel' & s' & e' & activity & uid & _ & Hlt & Hcheck & ->).
    apply newScheduleDoc_valid. now split.
Qed.

Lemma handleAddScheduleEntry_validates_witness :
  (exists message,
     message <> "" /\
     App.handleAddScheduleEntry 0 0
       (sampleState "daily" [] (Some (isoDate 2024 3 10))
          (Some (isoDate 2024 3 1)))
     = App.SetError message) /\
  (exists stored,
     App.handleAddScheduleEntry 0 0
       (sampleState "weekly" [1; 3] (Some (isoDate 2024 3 10))
          (Some (isoDate 2024 3 31)))
     = App.AddDoc stored).
Proof.
  split.
  - refine (proj1 (handleAddScheduleEntry_validates 0 0
                     (sampleState "daily" [] (Some (isoDate 2024 3 10))
                        (Some (isoDate 2024 3 1)))
                     (newDate 0 2024 2 10) (9 * 60) (10 * 60)
                     eq_refl eq_refl eq_refl _)
                  {| itemId := "act-1"; name := "Focus"; color := "#3366ff" |}
                  "owner-1" _).
    + discriminate.
    + intros (_ & _ & Hwindow & _).
      specialize (Hwindow _ _ eq_refl eq_refl). vm_compute in Hwindow.
      now apply Hwindow.
  - eexists.
    refine (proj1 (proj2 (handleAddScheduleEntry_validates 0 0
                     (sampleState "weekly" [1; 3] (Some (isoDate 2024 3 10))
                        (Some (isoDate 2024 3 31)))
                     (newDate 0 2024 2 10) (9 * 60) (10 * 60)
                     eq_refl eq_refl eq_refl _))
                  {| itemId := "act-1"; name := "Focus"; color := "#3366ff" |}
                  "owner-1" _).
    + discriminate.
    + apply newScheduleDoc_valid. split; vm_compute; reflexivity.
Defined.

(** C10. Every document the handler passes to [addDoc] with type ['none']
    has [recurrenceStartDate] and [recurrenceEndDate] null and
    [recurrenceDays] empty, and every document of a type other than
    ['weekly'] has [recurrenceDays] empty. *)
Theorem stored_recurrence_fields_normalised (tz now : Z) (st : App.State)
  (stored : ScheduleDoc) :
  App.handleAddScheduleEntry tz now st = App.AddDoc stored ->
  (recurrenceType stored = "none" ->
   recurrenceStartDate stored = None /\
   recurrenceEndDate stored = None /\
   recurrenceDays stored = Some []) /\
  (recurrenceType stored <> "weekly" -> recurrenceDays stored = Some []).
Proof.
  intros Hadd.
  apply handleAddScheduleEntry_AddDoc in Hadd
    as (sel & s & e & activity & uid & _ & _ & _ & ->).
  unfold App.newScheduleDoc. cbn. split.
  - intros ->. cbn. auto.
  - intros Hother.
    now destruct (String.eqb_spec (App.newScheduleRecurrenceType st) "weekly").
Qed.

Lemma stored_recurrence_fields_normalised_witness :
  exists stored,
    App.handleAddScheduleEntry 0 0
      (sampleState "none" [1] (Some (isoDate 2024 3 10))
         (Some (isoDate 2024 3 1)))
    = App.AddDoc stored /\
    recurrenceStartDate stored = None /\
    recurrenceEndDate stored = None /\
    recurrenceDays stored = Some [].
Proof.
  eexists. split; [vm_compute; reflexivity|].
  refine (proj1 (stored_recurrence_fields_normalised 0 0
                   (sampleState "none" [1] (Some (isoDate 2024 3 10))
                      (Some (isoDate 2024 3 1))) _ _) _).
  - vm_compute. reflexivity.
  - reflexivity.
Defined.

(** * Further properties of the calendar and the form *)

(** ** Calendar dates from day numbers and back *)

(** March-based month [mp] and year of era [yoe]: a date that precedes the
    first of the next month is recovered from its day of era. *)
Lemma dayOfEra_inverse (yoe mp d : Z) :
  0 <= yoe <= 399 -> 0 <= mp <= 11 -> 1 <= d ->
  let doy := (153 * mp + 2) / 5 + d - 1 in
  let doe := yoe * 365 + yoe / 4 - yoe / 100 + doy in
  (mp < 11 -> doy < (153 * (mp + 1) + 2) / 5) ->
  (mp = 11 ->
   doe < if yoe =? 399 then 146097
         else (yoe + 1) * 365 + (yoe + 1) / 4 - (yoe + 1) / 100) ->
  let yoe' := (doe - doe / 1460 + doe / 36524 - doe / 146096) / 365 in
  let doy' := doe - (365 * yoe' + yoe' / 4 - yoe' / 100) in
  0 <= doe < 146097 /\ yoe' = yoe /\ (5 * doy' + 2) / 153 = mp.
Proof.
  intros Hy Hm Hd doy doe H1 H2 yoe' doy'.
  assert (Hdoy : 0 <= doy <= 365 /\
                 (doy = 365 ->
                  yoe = 399 \/
                  doe < (yoe + 1) * 365 + (yoe + 1) / 4 - (yoe + 1) / 100)).
  { subst doy doe. destruct (Z.eqb_spec yoe 399); Z.div_mod_to_equations; lia. }
  assert (Hdoe : 0 <= doe < 146097).
  { subst doe. clearbody doy. clear H1. Z.div_mod_to_equations. lia. }
  assert (Hyoe : yoe' = yoe).
  { subst yoe' doe. clearbody doy. clear H1 doy'.
    Z.div_mod_to_equations. lia. }
  split; [exact Hdoe|]. split; [exact Hyoe|].
  subst doy'. rewrite Hyoe. subst doe.
  replace (yoe * 365 + yoe / 4 - yoe / 100 + doy
           - (365 * yoe + yoe / 4 - yoe / 100)) with doy by lia.
  subst doy. clear - Hm Hd H1 H2 Hdoy. Z.div_mod_to_equations. lia.
Qed.

(** The first day of the month after [y]-[m], by era, year of era and
    March-based month of [y]-[m]. *)
Lemma firstOfNextMonth (y m : Z) :
  1 <= m <= 12 ->
  let y' := if m <=? 2 then y - 1 else y in
  let era := y' / 400 in
  let yoe := y' - era * 400 in
  let mp := if 2 <? m then m - 3 else m + 9 in
  MakeDay y m 1
  = era * 146097 - 719468 +
    if mp =? 11
    then (if yoe =? 399 then 146097
          else (yoe + 1) * 365 + (yoe + 1) / 4 - (yoe + 1) / 100)
    else yoe * 365 + yoe / 4 - yoe / 100 + (153 * (mp + 1) + 2) / 5.
Proof.
  intros Hm y' era yoe mp.
  assert (Hdiv : m / 12 = if m =? 12 then 1 else 0).
  { destruct (Z.eqb_spec m 12); Z.div_mod_to_equations; lia. }
  assert (Hmod : m mod 12 + 1 = if m =? 12 then 1 else m + 1).
  { destruct (Z.eqb_spec m 12); Z.div_mod_to_equations; lia. }
  unfold MakeDay. rewrite Hdiv, Hmod. clear Hdiv Hmod.
  set (Y := y + (if m =? 12 then 1 else 0)).
  set (M := if m =? 12 then 1 else m + 1).
  assert (HY : (if M <=? 2 then Y - 1 else Y)
               = if mp =? 11 then y' + 1 else y').
  { subst Y M y' mp.
    destruct (Z.eqb_spec m 12) as [->|].
    { change (1 <=? 2) with true. change (2 <? 12) with true.
      change (12 <=? 2) with false. cbv iota.
      destruct (Z.eqb_spec (12 - 3) 11); lia. }
    destruct (Z.ltb_spec 2 m), (Z.leb_spec (m + 1) 2), (Z.leb_spec m 2);
      try lia;
      match goal with |- context [?a =? 11] => destruct (Z.eqb_spec a 11) end;
      lia. }
  assert (HM : (if 2 <? M then M - 3 else M + 9)
               = if mp =? 11 then 0 else mp + 1).
  { subst M mp.
    destruct (Z.eqb_spec m 12) as [->|]; [reflexivity|].
    destruct (Z.ltb_spec 2 m), (Z.ltb_spec 2 (m + 1)); try lia;
      match goal with |- context [?a =? 11] => destruct (Z.eqb_spec a 11) end;
      lia. }
  unfold daysFromCivil. rewrite HY, HM. clearbody Y M. clear HY HM.
  destruct (Z.eqb_spec mp 11) as [Hfeb|Hnot].
  - change ((153 * 0 + 2) / 5) with 0.
    subst yoe era.
    destruct (Z.eqb_spec (y' - y' / 400 * 400) 399);
      Z.div_mod_to_equations; lia.
  - subst yoe era. lia.
Qed.

Lemma daysFromCivil_formula (y m d : Z) :
  let y' := if m <=? 2 then y - 1 else y in
  let era := y' / 400 in
  let yoe := y' - era * 400 in
  let mp := if 2 <? m then m - 3 else m + 9 in
  daysFromCivil y m d
  = era * 146097 - 719468 +
    (yoe * 365 + yoe / 4 - yoe / 100 + ((153 * mp + 2) / 5 + d - 1)).
Proof.
  unfold daysFromCivil. cbv zeta. ring.
Qed.

(** A date of a month is recovered from its day number. *)
Lemma civilFromDays_daysFromCivil (y m d : Z) :
  1 <= m <= 12 -> 1 <= d -> daysFromCivil y m d < MakeDay y m 1 ->
  civilFromDays (daysFromCivil y m d) = (y, m, d).
Proof.
  intros Hm Hd Hlt.
  pose proof (firstOfNextMonth y m Hm) as Hnext.
  pose proof (daysFromCivil_formula y m d) as Hdays.
  cbv zeta in Hnext, Hdays.
  set (y' := if m <=? 2 then y - 1 else y) in *.
  set (era := y' / 400) in *.
  set (yoe := y' - era * 400) in *.
  set (mp := if 2 <? m then m - 3 else m + 9) in *.
  assert (Hyoe : 0 <= yoe <= 399).
  { subst yoe era. Z.div_mod_to_equations. lia. }
  assert (Hmp : 0 <= mp <= 11).
  { subst mp. destruct (Z.ltb_spec 2 m); lia. }
  assert (Hm' : (if mp <? 10 then mp + 3 else mp - 9) = m).
  { subst mp. destruct (Z.ltb_spec 2 m).
    - destruct (Z.ltb_spec (m - 3) 10); lia.
    - destruct (Z.ltb_spec (m + 9) 10); lia. }
  assert (Hyear : (if m <=? 2 then yoe + era * 400 + 1 else yoe + era * 400)
                  = y).
  { subst yoe era y'. destruct (m <=? 2); lia. }
  clearbody mp yoe era. clear y'.
  pose proof (dayOfEra_inverse yoe mp d Hyoe Hmp Hd) as Hcore.
  cbv zeta in Hcore.
  rewrite Hnext, Hdays in Hlt.
  destruct Hcore as (Hdoe & Hy & Hmon).
  { intros Hlt11. destruct (Z.eqb_spec mp 11); lia. }
  { intros ->. change (11 =? 11) with true in Hlt. cbv iota in Hlt.
    destruct (Z.eqb_spec yoe 399); lia. }
  rewrite Hdays. clear Hlt Hnext Hdays.
  set (doy := (153 * mp + 2) / 5 + d - 1) in *.
  set (doe := yoe * 365 + yoe / 4 - yoe / 100 + doy) in *.
  unfold civilFromDays.
  replace (era * 146097 - 719468 + doe + 719468) with (doe + era * 146097)
    by ring.
  rewrite (Z.div_add doe era 146097) by lia.
  rewrite (Z.div_small doe 146097) by exact Hdoe.
  replace (doe + era * 146097 - (0 + era) * 146097) with doe by ring.
  rewrite Z.add_0_l.
  rewrite Hmon. rewrite Hy.
  replace (doe - (365 * yoe + yoe / 4 - yoe / 100)) with doy
    by (unfold doe; ring).
  rewrite Hm', Hyear. f_equal. unfold doy. ring.
Qed.

(** A month has 28 to 31 days. *)
Lemma monthLength_bounds (y m : Z) :
  1 <= m <= 12 -> 28 <= MakeDay y m 1 - daysFromCivil y m 1 <= 31.
Proof.
  intros Hm.
  pose proof (firstOfNextMonth y m Hm) as Hnext.
  pose proof (daysFromCivil_formula y m 1) as Hdays.
  cbv zeta in Hnext, Hdays. rewrite Hnext, Hdays. clear Hnext Hdays.
  set (y' := if m <=? 2 then y - 1 else y).
  set (era := y' / 400).
  set (yoe := y' - era * 400).
  set (mp := if 2 <? m then m - 3 else m + 9).
  assert (Hyoe : 0 <= yoe <= 399).
  { subst yoe era. Z.div_mod_to_equations. lia. }
  assert (Hmp : 0 <= mp <= 11).
  { subst mp. destruct (Z.ltb_spec 2 m); lia. }
  clearbody mp yoe era.
  destruct (Z.eqb_spec mp 11) as [->|Hnot].
  - change ((153 * 11 + 2) / 5) with 337.
    destruct (Z.eqb_spec yoe 399); Z.div_mod_to_equations; lia.
  - Z.div_mod_to_equations. lia.
Qed.

(** [MakeDay] carries a month index outside 0..11 into the year. *)
Lemma MakeDay_normalise (y mo d : Z) :
  MakeDay y mo d = MakeDay (y + mo / 12) (mo mod 12) d.
Proof.
  unfold MakeDay. do 2 f_equal.
  assert (Hsmall : 0 <= mo mod 12 < 12) by (apply Z.mod_pos_bound; lia).
  rewrite (Z.div_small (mo mod 12)), (Z.mod_small (mo mod 12)) by exact Hsmall.
  now rewrite Z.add_0_r.
Qed.

Lemma MakeDay_add_months (y a b d : Z) :
  MakeDay (y + a / 12) (a mod 12 + b) d = MakeDay y (a + b) d.
Proof.
  unfold MakeDay. do 2 f_equal.
  - f_equal.
    + Z.div_mod_to_equations. lia.
    + f_equal. Z.div_mod_to_equations. lia.
Qed.

Lemma MakeDay_date (y mo d : Z) : MakeDay y mo d = MakeDay y mo 1 + (d - 1).
Proof.
  unfold MakeDay. lia.
Qed.

Lemma MakeDay_monthLength (y mo : Z) :
  28 <= MakeDay y (mo + 1) 1 - MakeDay y mo 1 <= 31.
Proof.
  assert (Hsmall : 0 <= mo mod 12 < 12) by (apply Z.mod_pos_bound; lia).
  pose proof (monthLength_bounds (y + mo / 12) (mo mod 12 + 1) ltac:(lia))
    as Hlen.
  replace (MakeDay y (mo + 1) 1)
    with (MakeDay (y + mo / 12) (mo mod 12 + 1) 1)
    by apply MakeDay_add_months.
  assert (Hfirst : MakeDay y mo 1
                   = daysFromCivil (y + mo / 12) (mo mod 12 + 1) 1)
    by (unfold MakeDay; lia).
  rewrite Hfirst. exact Hlen.
Qed.

(** Year, month and date of a day of the month [mo] of [y]. *)
Lemma civil_of_MakeDay (y mo d : Z) :
  1 <= d -> MakeDay y mo d < MakeDay y (mo + 1) 1 ->
  YearFromDay (MakeDay y mo d) = y + mo / 12 /\
  MonthFromDay (MakeDay y mo d) = mo mod 12 /\
  DateFromDay (MakeDay y mo d) = d.
Proof.
  intros Hd Hlt.
  assert (Hsmall : 0 <= mo mod 12 < 12) by (apply Z.mod_pos_bound; lia).
  assert (Hciv : civilFromDays (MakeDay y mo d)
                 = (y + mo / 12, mo mod 12 + 1, d)).
  { replace (MakeDay y mo d)
      with (daysFromCivil (y + mo / 12) (mo mod 12 + 1) d)
      by (unfold MakeDay, daysFromCivil; cbv zeta; lia).
    apply civilFromDays_daysFromCivil; [lia|exact Hd|].
    rewrite MakeDay_add_months.
    replace (daysFromCivil (y + mo / 12) (mo mod 12 + 1) d)
      with (MakeDay y mo d)
      by (unfold MakeDay, daysFromCivil; cbv zeta; lia).
    exact Hlt. }
  unfold YearFromDay, MonthFromDay, DateFromDay. rewrite Hciv. cbn. lia.
Qed.

(** ** Dates built from year, month and date *)

Lemma LocalTime_UTC (tz t : Z) : LocalTime tz (UTC tz t) = t.
Proof.
  unfold LocalTime, UTC. lia.
Qed.

Lemma Day_of_midnight (z : Z) : Day (z * msPerDay) = z.
Proof.
  unfold Day, msPerDay. now rewrite Z.div_mul.
Qed.

Lemma localDay_newDate (tz year month date : Z) :
  Day (LocalTime tz (newDate tz year month date))
  = MakeDay (constructorYear year) month date.
Proof.
  unfold newDate. rewrite LocalTime_UTC. apply Day_of_midnight.
Qed.

Lemma toDateString_newDate (tz year month date : Z) :
  toDateString tz (newDate tz year month date)
  = MakeDay (constructorYear year) month date.
Proof.
  apply localDay_newDate.
Qed.

Lemma newDate_date (tz year month date : Z) :
  newDate tz year month date
  = newDate tz year month 1 + (date - 1) * msPerDay.
Proof.
  unfold newDate, UTC. cbv zeta.
  rewrite (MakeDay_date _ month date). lia.
Qed.

Lemma toISODate_next_days (t k : Z) :
  toISODate (t + k * msPerDay) = toISODate t + k.
Proof.
  unfold toISODate, Day, msPerDay. now rewrite Z.div_add.
Qed.


(** The displayed month as a pair of a constructor year and a month
    index, and its length in days. *)
Lemma getMonth_bounds (tz t : Z) : 0 <= getMonth tz t <= 11.
Proof.
  apply MonthFromDay_bounds.
Qed.

Lemma getDaysInMonth_length (tz date : Z) :
  App.getDaysInMonth tz date
  = MakeDay (constructorYear (getFullYear tz date)) (getMonth tz date + 1) 1
    - MakeDay (constructorYear (getFullYear tz date)) (getMonth tz date) 1.
Proof.
  unfold App.getDaysInMonth. cbv zeta.
  set (yr := constructorYear (getFullYear tz date)).
  set (mo := getMonth tz date).
  pose proof (MakeDay_monthLength yr mo) as Hlen.
  unfold getDate. rewrite localDay_newDate. fold yr.
  set (len := MakeDay yr (mo + 1) 1 - MakeDay yr mo 1) in *.
  replace (MakeDay yr (mo + 1) 0) with (MakeDay yr mo len)
    by (rewrite (MakeDay_date yr mo len), (MakeDay_date yr (mo + 1) 0);
        unfold len; lia).
  assert (Hin : MakeDay yr mo len < MakeDay yr (mo + 1) 1)
    by (rewrite (MakeDay_date yr mo len); unfold len; lia).
  destruct (civil_of_MakeDay yr mo len ltac:(lia) Hin) as (_ & _ & Hdate).
  exact Hdate.
Qed.

Lemma currentMonth_span (tz currentMonth : Z) :
  App.currentMonthEndDate tz currentMonth
  = App.currentMonthStartDate tz currentMonth
    + (App.getDaysInMonth tz currentMonth - 1) * msPerDay.
Proof.
  rewrite getDaysInMonth_length.
  unfold App.currentMonthEndDate, App.currentMonthStartDate, newDate, UTC.
  cbv zeta. fold (constructorYear (getFullYear tz currentMonth)).
  rewrite (MakeDay_date _ (getMonth tz currentMonth + 1) 0). lia.
Qed.

(** ** The calendar grid *)

Lemma constructorYear_id (year : Z) : 99 < year -> constructorYear year = year.
Proof.
  intros Hy. unfold constructorYear.
  destruct (Z.leb_spec year 99); [lia|]. now rewrite andb_false_r.
Qed.

(** X7. [getDaysInMonth] is the length of the displayed month: between 28
    and 31, with the day-1 cell on the first instant of the month loop and
    the last cell on its last instant. *)
Theorem getDaysInMonth_spans_month_loop (tz currentMonth : Z) :
  28 <= App.getDaysInMonth tz currentMonth <= 31 /\
  App.dayDateOf tz currentMonth 1 = App.currentMonthStartDate tz currentMonth /\
  App.dayDateOf tz currentMonth (App.getDaysInMonth tz currentMonth)
  = App.currentMonthEndDate tz currentMonth.
Proof.
  split; [|split].
  - rewrite getDaysInMonth_length. apply MakeDay_monthLength.
  - unfold App.dayDateOf, App.currentMonthStartDate. reflexivity.
  - rewrite currentMonth_span.
    unfold App.dayDateOf, App.currentMonthStartDate.
    apply newDate_date.
Qed.




(** ** Changing the displayed month *)

Lemma newDate_unfold (tz year month date : Z) :
  newDate tz year month date
  = UTC tz (MakeDay (constructorYear year) month date * msPerDay).
Proof.
  reflexivity.
Qed.

Lemma changeMonth_lands_on_first (tz year month : Z) :
  99 < getFullYear tz (newDate tz year month 1) ->
  getFullYear tz (newDate tz year month 1) = constructorYear year + month / 12 /\
  getMonth tz (newDate tz year month 1) = month mod 12 /\
  getDate tz (newDate tz year month 1) = 1 /\
  newDate tz (getFullYear tz (newDate tz year month 1))
    (getMonth tz (newDate tz year month 1)) 1
  = newDate tz year month 1.
Proof.
  pose proof (MakeDay_monthLength (constructorYear year) month) as Hlen.
  destruct (civil_of_MakeDay (constructorYear year) month 1 ltac:(lia)
              ltac:(lia)) as (Hy & Hm & Hd).
  unfold getFullYear, getMonth, getDate.
  rewrite localDay_newDate, Hy, Hm, Hd.
  intros Hyear. repeat split.
  rewrite (newDate_unfold tz (constructorYear year + month / 12)).
  rewrite constructorYear_id by exact Hyear.
  rewrite <- MakeDay_normalise. symmetry. apply newDate_unfold.
Qed.

Lemma changeMonth_unfold (tz offset prevMonth : Z) :
  App.changeMonth tz offset prevMonth
  = (newDate tz (getFullYear tz prevMonth) (getMonth tz prevMonth + offset) 1,
     newDate tz
       (getFullYear tz (newDate tz (getFullYear tz prevMonth)
                          (getMonth tz prevMonth + offset) 1))
       (getMonth tz (newDate tz (getFullYear tz prevMonth)
                       (getMonth tz prevMonth + offset) 1)) 1).
Proof.
  reflexivity.
Qed.

(** X9. After [changeMonth(offset)] the displayed month and the selected
    date are the same instant, local midnight of the 1st of the month
    [offset] months away. *)
Theorem changeMonth_selects_first_of_month (tz offset prevMonth : Z) :
  99 < getFullYear tz prevMonth ->
  99 < getFullYear tz (fst (App.changeMonth tz offset prevMonth)) ->
  snd (App.changeMonth tz offset prevMonth)
  = fst (App.changeMonth tz offset prevMonth) /\
  getDate tz (fst (App.changeMonth tz offset prevMonth)) = 1 /\
  getMonth tz (fst (App.changeMonth tz offset prevMonth))
  = (getMonth tz prevMonth + offset) mod 12 /\
  getFullYear tz (fst (App.changeMonth tz offset prevMonth))
  = getFullYear tz prevMonth + (getMonth tz prevMonth + offset) / 12.
Proof.
  rewrite changeMonth_unfold. cbn [fst snd]. intros Hprev Hnew.
  destruct (changeMonth_lands_on_first tz (getFullYear tz prevMonth)
              (getMonth tz prevMonth + offset) Hnew) as (Hy & Hm & Hd & Hsel).
  rewrite constructorYear_id in Hy by exact Hprev.
  rewrite Hsel, Hd, Hm, Hy. repeat split.
Qed.

(** X10. Month changes add up: going [a] months and then [b] months is
    going [a + b] months; Next followed by Prev shows the month one
    started from. *)
Theorem changeMonth_offsets_add (tz a b prevMonth : Z) :
  99 < getFullYear tz prevMonth ->
  99 < getFullYear tz (fst (App.changeMonth tz a prevMonth)) ->
  App.changeMonth tz b (fst (App.changeMonth tz a prevMonth))
  = App.changeMonth tz (a + b) prevMonth.
Proof.
  rewrite (changeMonth_unfold tz a). cbn [fst]. intros Hprev Hmid.
  destruct (changeMonth_lands_on_first tz (getFullYear tz prevMonth)
              (getMonth tz prevMonth + a) Hmid) as (Hy & Hm & _ & _).
  rewrite constructorYear_id in Hy by exact Hprev.
  rewrite !changeMonth_unfold.
  generalize dependent (newDate tz (getFullYear tz prevMonth)
                          (getMonth tz prevMonth + a) 1).
  intros mid Hmid Hy Hm.
  assert (Hsame : newDate tz (getFullYear tz mid) (getMonth tz mid + b) 1
                  = newDate tz (getFullYear tz prevMonth)
                      (getMonth tz prevMonth + (a + b)) 1).
  { rewrite !newDate_unfold.
    rewrite !constructorYear_id by lia.
    rewrite Hy, Hm, MakeDay_add_months.
    now rewrite Z.add_assoc. }
  now rewrite Hsame.
Qed.

(** ** The weekday checkboxes *)

Lemma ascending_not_before (x : Z) (l : list Z) :
  Forall (Z.lt x) l -> ~ In x l.
Proof.
  intros Hall Hin. rewrite List.Forall_forall in Hall.
  specialize (Hall x Hin). lia.
Qed.

Lemma ascending_NoDup (l : list Z) : StronglySorted Z.lt l -> List.NoDup l.
Proof.
  induction 1 as [|x xs _ IH Hall]; constructor; [|exact IH].
  now apply ascending_not_before.
Qed.

(** Strictly ascending lists are determined by their members. *)
Lemma ascending_ext (l1 l2 : list Z) :
  StronglySorted Z.lt l1 -> StronglySorted Z.lt l2 ->
  (forall x, In x l1 <-> In x l2) -> l1 = l2.
Proof.
  intros Hs1. revert l2.
  induction Hs1 as [|x xs Hxs IH Hx]; intros l2 Hs2 Hmem.
  - destruct l2 as [|y ys]; [reflexivity|].
    destruct (proj2 (Hmem y) (or_introl eq_refl)).
  - destruct Hs2 as [|y ys Hys Hy].
    + destruct (proj1 (Hmem x) (or_introl eq_refl)).
    + rewrite List.Forall_forall in Hx, Hy.
      assert (Hxy : x = y).
      { destruct (proj1 (Hmem x) (or_introl eq_refl)) as [->|Hin1];
          [reflexivity|].
        destruct (proj2 (Hmem y) (or_introl eq_refl)) as [->|Hin2];
          [reflexivity|].
        pose proof (Hx y Hin2). pose proof (Hy x Hin1). lia. }
      subst y. f_equal. apply IH; [exact Hys|].
      intros z. split; intros Hz.
      * destruct (proj1 (Hmem z) (or_intror Hz)) as [->|Hin]; [|exact Hin].
        pose proof (Hx _ Hz). lia.
      * destruct (proj2 (Hmem z) (or_intror Hz)) as [->|Hin]; [|exact Hin].
        pose proof (Hy _ Hz). lia.
Qed.

Lemma ascending_filter (f : Z -> bool) (l : list Z) :
  StronglySorted Z.lt l -> StronglySorted Z.lt (List.filter f l).
Proof.
  induction 1 as [|x xs _ IH Hall]; cbn; [constructor|].
  destruct (f x); [|exact IH].
  constructor; [exact IH|].
  rewrite List.Forall_forall in *. intros y Hy.
  apply List.filter_In in Hy as [Hy _]. now apply Hall.
Qed.

Lemma includes_false (arr : list Z) (x : Z) :
  includes arr x = false <-> ~ In x arr.
Proof.
  rewrite <- includes_In. destruct (includes arr x); split; congruence.
Qed.

Lemma handleRecurrenceDayChange_In (dayIndex x : Z) (prevDays : list Z) :
  In x (App.handleRecurrenceDayChange dayIndex prevDays) <->
  (x = dayIndex /\ ~ In dayIndex prevDays) \/ (x <> dayIndex /\ In x prevDays).
Proof.
  unfold App.handleRecurrenceDayChange.
  destruct (includes prevDays dayIndex) eqn:Hinc.
  - apply includes_In in Hinc. rewrite List.filter_In, negb_true_iff, Z.eqb_neq.
    split; [intros [Hin Hne]; now right|].
    intros [[-> Hno]|[Hne Hin]]; [contradiction|now split].
  - apply includes_false in Hinc.
    rewrite (arraySort_In (fun d : Z => d)), in_app_iff. cbn.
    split.
    + intros [Hin|[<-|[]]]; [right|left; now split].
      split; [|exact Hin]. intros ->. contradiction.
    + intros [[-> _]|[_ Hin]]; [right; now left|now left].
Qed.

Lemma handleRecurrenceDayChange_ascending (dayIndex : Z) (prevDays : list Z) :
  StronglySorted Z.lt prevDays ->
  StronglySorted Z.lt (App.handleRecurrenceDayChange dayIndex prevDays).
Proof.
  intros Hsorted. unfold App.handleRecurrenceDayChange.
  destruct (includes prevDays dayIndex) eqn:Hinc.
  - now apply ascending_filter.
  - apply includes_false in Hinc.
    apply (sorted_distinct_strict (fun d : Z => d)).
    + apply (arraySort_sorted (fun d : Z => d)).
    + rewrite map_id.
      eapply Permutation_NoDup;
        [symmetry; apply (arraySort_perm (fun d : Z => d))|].
      eapply Permutation_NoDup; [apply Permutation_cons_append|].
      constructor; [exact Hinc|now apply ascending_NoDup].
Qed.

(** X1. Ticking or unticking a weekday changes the membership of that
    weekday only, and keeps the list strictly ascending. *)
Theorem weekday_toggle_flips_one_day (dayIndex : Z) (prevDays : list Z) :
  StronglySorted Z.lt prevDays ->
  StronglySorted Z.lt (App.handleRecurrenceDayChange dayIndex prevDays) /\
  (In dayIndex (App.handleRecurrenceDayChange dayIndex prevDays) <->
   ~ In dayIndex prevDays) /\
  (forall d, d <> dayIndex ->
     (In d (App.handleRecurrenceDayChange dayIndex prevDays) <->
      In d prevDays)).
Proof.
  intros Hsorted. split; [now apply handleRecurrenceDayChange_ascending|].
  split.
  - rewrite handleRecurrenceDayChange_In. intuition congruence.
  - intros d Hne. rewrite handleRecurrenceDayChange_In. intuition congruence.
Qed.

(** X2. On a strictly ascending list, toggling the same weekday twice gives
    the list back, and toggles of two weekdays commute. *)
Theorem weekday_toggle_twice_and_commute (i j : Z) (prevDays : list Z) :
  StronglySorted Z.lt prevDays ->
  App.handleRecurrenceDayChange i (App.handleRecurrenceDayChange i prevDays)
  = prevDays /\
  App.handleRecurrenceDayChange i (App.handleRecurrenceDayChange j prevDays)
  = App.handleRecurrenceDayChange j (App.handleRecurrenceDayChange i prevDays).
Proof.
  intros Hsorted. split.
  - apply ascending_ext;
      [now do 2 apply handleRecurrenceDayChange_ascending|exact Hsorted|].
    intros x. rewrite !handleRecurrenceDayChange_In.
    destruct (Z.eq_dec x i) as [->|Hne];
      destruct (in_dec Z.eq_dec i prevDays); intuition congruence.
  - apply ascending_ext; try now do 2 apply handleRecurrenceDayChange_ascending.
    intros x. rewrite !handleRecurrenceDayChange_In.
    destruct (in_dec Z.eq_dec i prevDays), (in_dec Z.eq_dec j prevDays),
      (in_dec Z.eq_dec x prevDays), (Z.eq_dec x i), (Z.eq_dec x j),
      (Z.eq_dec i j); subst; intuition congruence.
Qed.

(** ** What the form can store *)

Lemma formStep_days (ev : App.FormEvent) (st : App.State) :
  formEventOffered ev ->
  StronglySorted Z.lt (App.newScheduleRecurrenceDays st) /\
  Forall (fun d => 0 <= d <= 6) (App.newScheduleRecurrenceDays st) ->
  StronglySorted Z.lt (App.newScheduleRecurrenceDays (App.formStep ev st)) /\
  Forall (fun d => 0 <= d <= 6)
    (App.newScheduleRecurrenceDays (App.formStep ev st)).
Proof.
  intros Hev [Hsorted Hrange].
  destruct ev; cbn in *; try (split; assumption).
  - split; [now apply handleRecurrenceDayChange_ascending|].
    rewrite List.Forall_forall in *. intros d Hd.
    apply handleRecurrenceDayChange_In in Hd as [[-> _]|[_ Hd]];
      [lia|now apply Hrange].
  - destruct (negb _); [split; constructor|split; assumption].
  - split; constructor.
Qed.

Lemma formSteps_days (events : list App.FormEvent) (st : App.State) :
  Forall formEventOffered events ->
  StronglySorted Z.lt (App.newScheduleRecurrenceDays st) /\
  Forall (fun d => 0 <= d <= 6) (App.newScheduleRecurrenceDays st) ->
  let st' := foldl (fun s ev => App.formStep ev s) st events in
  StronglySorted Z.lt (App.newScheduleRecurrenceDays st') /\
  Forall (fun d => 0 <= d <= 6) (App.newScheduleRecurrenceDays st').
Proof.
  intros Hevents. revert st.
  induction Hevents as [|ev evs Hev _ IH]; intros st Hinv; cbn.
  - exact Hinv.
  - apply IH. now apply formStep_days.
Qed.

(** Everything the handler read when it reaches [addDoc]. *)
Lemma handleAddScheduleEntry_AddDoc_inv (tz now : Z) (st : App.State)
  (stored : ScheduleDoc) :
  App.handleAddScheduleEntry tz now st = App.AddDoc stored ->
  exists selected startTime endTime activity uid,
    App.selectedDate st = Some selected /\
    App.newScheduleStartTime st = Some startTime /\
    App.newScheduleEndTime st = Some endTime /\
    startTime < endTime /\
    List.find (fun item =>
                 String.eqb (itemId item) (App.newScheduleActivityId st))
              (App.activityItems st) = Some activity /\
    App.userId st = Some uid /\
    stored = App.newScheduleDoc now st selected
               (parseLocalDateTime tz (toISODate selected) startTime)
               (parseLocalDateTime tz (toISODate selected) endTime)
               activity uid.
Proof.
  unfold App.handleAddScheduleEntry.
  destruct (App.selectedDate st) as [selected|]; [|discriminate].
  destruct (App.newScheduleStartTime st) as [startTime|]; [|discriminate].
  destruct (App.newScheduleEndTime st) as [endTime|]; [|discriminate].
  destruct (String.eqb _ ""); [discriminate|].
  destruct (Z.leb_spec (parseLocalDateTime tz (toISODate selected) endTime)
              (parseLocalDateTime tz (toISODate selected) startTime)) as [|Hlt];
    [discriminate|].
  destruct (App.checkRecurrence st); [discriminate|].
  destruct (List.find _ _) as [activity|] eqn:Hfind; [|discriminate].
  destruct (App.db st); [|discriminate].
  destruct (App.userId st) as [uid|]; [|discriminate].
  intros [= <-]. exists selected, startTime, endTime, activity, uid.
  repeat split; auto.
  unfold parseLocalDateTime, UTC, msPerMinute in Hlt. lia.
Qed.

(** X3. Starting from an empty weekday list, whatever the user does with
    the form, a stored document lists its weekdays strictly ascending,
    without repetition, as indices 0..6. *)
Theorem stored_weekdays_ascending_indices (tz now : Z) (st0 : App.State)
  (events : list App.FormEvent) (stored : ScheduleDoc) :
  App.newScheduleRecurrenceDays st0 = [] ->
  Forall formEventOffered events ->
  App.handleAddScheduleEntry tz now
    (foldl (fun s ev => App.formStep ev s) st0 events)
  = App.AddDoc stored ->
  exists days,
    recurrenceDays stored = Some days /\
    StronglySorted Z.lt days /\
    Forall (fun d => 0 <= d <= 6) days.
Proof.
  intros Hempty Hevents Hadd.
  pose proof (formSteps_days events st0 Hevents) as Hinv.
  rewrite Hempty in Hinv.
  specialize (Hinv ltac:(split; constructor)).
  cbv zeta in Hinv. destruct Hinv as [Hsorted Hrange].
  apply handleAddScheduleEntry_AddDoc_inv in Hadd
    as (sel & s & e & activity & uid & _ & _ & _ & _ & _ & _ & ->).
  unfold App.newScheduleDoc. cbn.
  eexists. split; [reflexivity|].
  destruct (String.eqb _ "weekly"); [now split|split; constructor].
Qed.

(** X4. The activity name and colour stored with an entry are those of the
    listed activity whose id is the stored [activityId], as the list was
    when the entry was added. *)
Theorem stored_activity_is_snapshot (tz now : Z) (st : App.State)
  (stored : ScheduleDoc) :
  App.handleAddScheduleEntry tz now st = App.AddDoc stored ->
  activityId stored = App.newScheduleActivityId st /\
  exists activity,
    In activity (App.activityItems st) /\
    itemId activity = activityId stored /\
    activityName stored = name activity /\
    activityColor stored = color activity.
Proof.
  intros Hadd.
  apply handleAddScheduleEntry_AddDoc_inv in Hadd
    as (sel & s & e & activity & uid & _ & _ & _ & _ & Hfind & _ & ->).
  apply List.find_some in Hfind as [Hin Hid]. apply String.eqb_eq in Hid.
  split; [reflexivity|]. exists activity. cbn. auto.
Qed.

(** X5. In a browser zone whose offset from UTC is one constant [tz] (no
    daylight-saving change), a stored entry carries the ISO date of the
    selected date, its start and end instants are the entered times of
    day on that date read as local time, and its duration is the positive
    difference of the two entered times. *)
Theorem stored_instants_are_entered_times (tz now : Z) (st : App.State)
  (stored : ScheduleDoc) :
  App.handleAddScheduleEntry tz now st = App.AddDoc stored ->
  exists selected startTime endTime,
    App.selectedDate st = Some selected /\
    App.newScheduleStartTime st = Some startTime /\
    App.newScheduleEndTime st = Some endTime /\
    date stored = toISODate selected /\
    LocalTime tz (startDateTimeUTC stored)
    = date stored * msPerDay + startTime * msPerMinute /\
    LocalTime tz (endDateTimeUTC stored)
    = date stored * msPerDay + endTime * msPerMinute /\
    endDateTimeUTC stored - startDateTimeUTC stored
    = (endTime - startTime) * msPerMinute /\
    0 < endTime - startTime.
Proof.
  intros Hadd.
  apply handleAddScheduleEntry_AddDoc_inv in Hadd
    as (sel & s & e & activity & uid & Hsel & Hs & He & Hlt & _ & _ & ->).
  exists sel, s, e. cbn.
  unfold parseLocalDateTime. rewrite !LocalTime_UTC.
  repeat split; auto; unfold UTC; lia.
Qed.

(** X6. A non-repeating entry added for the selected date is listed for
    that date, in every zone and in both views, once the snapshot holds
    it. *)
Theorem added_one_time_entry_is_listed (tz now : Z) (st : App.State)
  (stored : ScheduleDoc) (selected : Z) (ident : string)
  (entries occ : list Entry) :
  App.handleAddScheduleEntry tz now st = App.AddDoc stored ->
  recurrenceType stored = "none" ->
  App.selectedDate st = Some selected ->
  In {| entryId := ident; data := stored |} entries ->
  OccurrenceList tz selected entries occ ->
  In {| entryId := ident; data := stored |} occ.
Proof.
  intros Hadd Htype Hsel Hin Hocc.
  apply handleAddScheduleEntry_AddDoc_inv in Hadd
    as (sel & s & e & activity & uid & Hsel' & _ & _ & _ & _ & _ & Hdoc).
  assert (sel = selected) by congruence. subst sel.
  apply OccurrenceList_spec in Hocc. subst occ.
  apply (arraySort_In (fun e : Entry => startDateTimeUTC e)).
  apply List.filter_In. split; [exact Hin|].
  assert (Htype' : App.newScheduleRecurrenceType st = "none").
  { rewrite Hdoc in Htype. exact Htype. }
  unfold App.matchesSelectedDate, App.isDateWithinRecurrenceRange,
    entryStartDate, entryEndDate.
  rewrite Hdoc. cbn. rewrite Htype'. cbn. now rewrite Z.eqb_refl.
Qed.

(** ** The month map *)

Section MonthMap.
Variables tz currentMonth : Z.

Let lastDay : Z := App.currentMonthEndDate tz currentMonth.

Lemma dayDateOf_days (i : Z) :
  App.dayDateOf tz currentMonth i
  = App.currentMonthStartDate tz currentMonth + (i - 1) * msPerDay.
Proof.
  unfold App.dayDateOf, App.currentMonthStartDate. apply newDate_date.
Qed.

Lemma dayDateOf_in_month (i : Z) :
  App.dayDateOf tz currentMonth i <= lastDay <->
  i <= App.getDaysInMonth tz currentMonth.
Proof.
  unfold lastDay. rewrite currentMonth_span, dayDateOf_days.
  unfold msPerDay. lia.
Qed.

Lemma dayDateOf_ISO_inj (i j : Z) :
  toISODate (App.dayDateOf tz currentMonth i)
  = toISODate (App.dayDateOf tz currentMonth j) -> i = j.
Proof.
  rewrite !dayDateOf_days, !toISODate_next_days. lia.
Qed.

(** Whatever the day loop leaves in the map was there before or was
    written on a day of the loop on which the entry fires. *)
Lemma dayLoop_provenance (entry : Entry) (fuel : nat) :
  forall (tempDate : Z) (dates dates' : gmap Z string) (k : Z) (c : string),
  App.dayLoop tz currentMonth fuel entry tempDate dates = Normal dates' ->
  dates' !! k = Some c ->
  dates !! k = Some c \/
  (c = activityColor entry /\
   exists j, 0 <= j /\ tempDate + j * msPerDay <= lastDay /\
             k = toISODate (tempDate + j * msPerDay) /\
             App.firesOn tz entry (tempDate + j * msPerDay) = Normal true).
Proof.
  induction fuel as [|fuel IH]; intros tempDate dates dates' k c Hrun Hk.
  - cbn in Hrun. inversion Hrun; subst. now left.
  - cbn [App.dayLoop] in Hrun. fold lastDay in Hrun.
    destruct (Z.leb_spec tempDate lastDay) as [Hle|Hgt].
    2: { inversion Hrun; subst. now left. }
    destruct (App.firesOn tz entry tempDate) as [fires|err] eqn:Hfires;
      [|discriminate].
    cbn in Hrun. rewrite setDate_next_day in Hrun.
    destruct (IH _ _ _ k c Hrun Hk) as [Hold|(Hc & j & Hj & Hin & Hkey & Hf)].
    + destruct fires; [|now left].
      destruct (Z.eq_dec (toISODate tempDate) k) as [Heq|Hne].
      * rewrite Heq, lookup_insert_eq in Hold. inversion Hold; subst c.
        right. split; [reflexivity|]. exists 0.
        rewrite Z.mul_0_l, Z.add_0_r. repeat split; auto; lia.
      * rewrite lookup_insert_ne in Hold by exact Hne. now left.
    + right. split; [exact Hc|]. exists (j + 1).
      replace (tempDate + (j + 1) * msPerDay)
        with (tempDate + msPerDay + j * msPerDay) by lia.
      repeat split; auto; lia.
Qed.

(** A key holding the entry's colour keeps it through the loop. *)
Lemma dayLoop_keeps_colour (entry : Entry) (fuel : nat) :
  forall (tempDate : Z) (dates dates' : gmap Z string) (k : Z),
  App.dayLoop tz currentMonth fuel entry tempDate dates = Normal dates' ->
  dates !! k = Some (activityColor entry) ->
  dates' !! k = Some (activityColor entry).
Proof.
  induction fuel as [|fuel IH]; intros tempDate dates dates' k Hrun Hk.
  - cbn in Hrun. inversion Hrun; subst. exact Hk.
  - cbn [App.dayLoop] in Hrun.
    destruct (tempDate <=? App.currentMonthEndDate tz currentMonth).
    2: { inversion Hrun; subst. exact Hk. }
    destruct (App.firesOn tz entry tempDate) as [fires|err]; [|discriminate].
    cbn in Hrun. eapply IH; [exact Hrun|].
    destruct fires; [|exact Hk].
    destruct (Z.eq_dec (toISODate tempDate) k) as [->|Hne].
    + apply lookup_insert_eq.
    + now rewrite lookup_insert_ne.
Qed.

(** Every day of the loop on which the entry fires ends up in the map. *)
Lemma dayLoop_writes (entry : Entry) (fuel : nat) :
  forall (tempDate : Z) (dates dates' : gmap Z string) (j : Z),
  App.dayLoop tz currentMonth fuel entry tempDate dates = Normal dates' ->
  0 <= j < Z.of_nat fuel -> tempDate + j * msPerDay <= lastDay ->
  App.firesOn tz entry (tempDate + j * msPerDay) = Normal true ->
  dates' !! toISODate (tempDate + j * msPerDay) = Some (activityColor entry).
Proof.
  induction fuel as [|fuel IH]; intros tempDate dates dates' j Hrun Hj Hin Hf.
  - lia.
  - cbn [App.dayLoop] in Hrun. fold lastDay in Hrun.
    destruct (Z.leb_spec tempDate lastDay) as [Hle|Hgt].
    2: { unfold msPerDay in Hin. lia. }
    destruct (App.firesOn tz entry tempDate) as [fires|err] eqn:Hfires;
      [|discriminate].
    cbn in Hrun.
    destruct (Z.eq_dec j 0) as [->|Hpos].
    + rewrite Z.mul_0_l, Z.add_0_r in *. rewrite Hf in Hfires.
      inversion Hfires; subst fires.
      eapply dayLoop_keeps_colour; [exact Hrun|]. apply lookup_insert_eq.
    + rewrite setDate_next_day in Hrun.
      replace (tempDate + j * msPerDay)
        with (tempDate + msPerDay + (j - 1) * msPerDay) in * by lia.
      eapply IH; [exact Hrun|lia|exact Hin|exact Hf].
Qed.



Lemma firesOn_true_matches (entry : Entry) (d : Z) :
  App.firesOn tz entry d = Normal true <->
  recurrenceType entry <> "none" /\
  App.matchesSelectedDate tz d entry = true.
Proof.
  unfold App.firesOn, App.matchesSelectedDate.
  destruct (App.isDateWithinRecurrenceRange tz entry d); cbn.
  2: { split; [discriminate|]. intros [_ [=]]. }
  destruct (String.eqb_spec (recurrenceType entry) "daily") as [Hd|Hnd]; cbn.
  { rewrite Hd. cbn. split; [|reflexivity]. intros _. split; [discriminate|].
    reflexivity. }
  destruct (String.eqb_spec (recurrenceType entry) "weekly") as [Hw|Hnw]; cbn.
  - rewrite Hw. cbn.
    destruct (recurrenceDays entry) as [days|].
    + split.
      * intros [= ->]. split; [discriminate|reflexivity].
      * intros [_ ->]. reflexivity.
    + split; [discriminate|]. intros [_ [=]].
  - split; [discriminate|]. intros [Hnone Hm].
    destruct (String.eqb_spec (recurrenceType entry) "none"); [contradiction|].
    discriminate.
Qed.


End MonthMap.

Lemma dayLoopFuel_days (tz currentMonth : Z) :
  Z.of_nat (App.dayLoopFuel tz currentMonth)
  = App.getDaysInMonth tz currentMonth.
Proof.
  unfold App.dayLoopFuel. rewrite currentMonth_span.
  pose proof (getDaysInMonth_length tz currentMonth) as Hlen.
  pose proof (MakeDay_monthLength
                (constructorYear (getFullYear tz currentMonth))
                (getMonth tz currentMonth)) as Hbounds.
  rewrite <- Hlen in Hbounds.
  generalize dependent (App.getDaysInMonth tz currentMonth).
  intros days _ Hbounds.
  replace (App.currentMonthStartDate tz currentMonth + (days - 1) * msPerDay
           - App.currentMonthStartDate tz currentMonth)
    with ((days - 1) * msPerDay) by lia.
  unfold msPerDay. rewrite Z.div_mul by lia. lia.
Qed.

(** What one entry can add to the month map. *)
Lemma populateMonth_provenance (tz currentMonth : Z) (entry : Entry)
  (dates dates' : gmap Z string) (k : Z) (c : string) :
  App.populateMonth tz currentMonth entry dates = Normal dates' ->
  dates' !! k = Some c ->
  dates !! k = Some c \/
  (c = activityColor entry /\
   ((recurrenceType entry = "none" /\ k = date entry /\
     App.dateInCurrentMonth tz currentMonth entry = true) \/
    (recurrenceType entry <> "none" /\
     exists i, 1 <= i <= App.getDaysInMonth tz currentMonth /\
               k = toISODate (App.dayDateOf tz currentMonth i) /\
               App.matchesSelectedDate tz (App.dayDateOf tz currentMonth i)
                 entry = true))).
Proof.
  unfold App.populateMonth. intros Hrun Hk.
  destruct (App.isRelevantForMonth tz currentMonth entry).
  2: { inversion Hrun; subst. now left. }
  destruct (String.eqb_spec (recurrenceType entry) "none") as [Hnone|Hrec].
  - destruct (App.dateInCurrentMonth tz currentMonth entry) eqn:Hin.
    2: { inversion Hrun; subst. now left. }
    inversion Hrun; subst dates'.
    destruct (Z.eq_dec (date entry) k) as [Heq|Hne].
    + rewrite Heq, lookup_insert_eq in Hk. inversion Hk; subst.
      right. split; [reflexivity|]. left. auto.
    + rewrite lookup_insert_ne in Hk by exact Hne. now left.
  - destruct (dayLoop_provenance tz currentMonth entry _ _ _ _ k c Hrun Hk)
      as [Hold|(Hc & j & Hj & Hin & Hkey & Hf)]; [now left|].
    right. split; [exact Hc|]. right. split; [exact Hrec|].
    exists (j + 1).
    assert (Hday : App.dayDateOf tz currentMonth (j + 1)
                   = App.currentMonthStartDate tz currentMonth + j * msPerDay)
      by (rewrite dayDateOf_days; f_equal; lia).
    cbv zeta in Hin. rewrite <- Hday in Hin, Hkey, Hf.
    apply dayDateOf_in_month in Hin.
    apply firesOn_true_matches in Hf as [_ Hm].
    repeat split; auto; lia.
Qed.

(** What one entry is sure to write. *)
Lemma populateMonth_writes (tz currentMonth : Z) (entry : Entry)
  (dates dates' : gmap Z string) :
  App.populateMonth tz currentMonth entry dates = Normal dates' ->
  (recurrenceType entry = "none" ->
   App.dateInCurrentMonth tz currentMonth entry = true ->
   dates' !! date entry = Some (activityColor entry)) /\
  (recurrenceType entry <> "none" ->
   App.isRelevantForMonth tz currentMonth entry = true ->
   forall i, 1 <= i <= App.getDaysInMonth tz currentMonth ->
     App.matchesSelectedDate tz (App.dayDateOf tz currentMonth i) entry = true ->
     dates' !! toISODate (App.dayDateOf tz currentMonth i)
     = Some (activityColor entry)).
Proof.
  unfold App.populateMonth. intros Hrun. split.
  - intros Hnone Hin. unfold App.isRelevantForMonth in Hrun.
    rewrite Hnone, Hin in Hrun. cbn in Hrun.
    inversion Hrun; subst. apply lookup_insert_eq.
  - intros Hrec Hrel i Hi Hm. rewrite Hrel in Hrun.
    destruct (String.eqb_spec (recurrenceType entry) "none");
      [contradiction|].
    rewrite dayDateOf_days in *.
    eapply dayLoop_writes; [exact Hrun| | |].
    + rewrite dayLoopFuel_days. lia.
    + cbv zeta. rewrite <- dayDateOf_days. apply dayDateOf_in_month. lia.
    + apply firesOn_true_matches. now split.
Qed.


Lemma forEach_app {A S} (body : S -> A -> Completion S) (l1 l2 : list A)
  (s : S) :
  forEach body (l1 ++ l2) s = s' ← forEach body l1 s; forEach body l2 s'.
Proof.
  revert s. induction l1 as [|x xs IH]; intros s; cbn; [reflexivity|].
  destruct (body s x) as [s1|err]; cbn; [apply IH|reflexivity].
Qed.

Lemma forEachBody_dates (tz currentMonth selected : Z)
  (st st' : gmap Z string * list Entry) (entry : Entry) :
  App.forEachBody tz currentMonth selected st entry = Normal st' ->
  App.populateMonth tz currentMonth entry (fst st) = Normal (fst st').
Proof.
  unfold App.forEachBody.
  destruct (App.populateMonth tz currentMonth entry (fst st)) as [d|err];
    cbn; [|discriminate].
  now intros [= <-].
Qed.


Lemma forEach_provenance (tz currentMonth selected : Z) (entries : list Entry) :
  forall (st st' : gmap Z string * list Entry) (k : Z) (c : string),
  forEach (App.forEachBody tz currentMonth selected) entries st = Normal st' ->
  fst st' !! k = Some c ->
  fst st !! k = Some c \/
  exists entry,
    In entry entries /\ c = activityColor entry /\
    ((recurrenceType entry = "none" /\ k = date entry /\
      App.dateInCurrentMonth tz currentMonth entry = true) \/
     (recurrenceType entry <> "none" /\
      exists i, 1 <= i <= App.getDaysInMonth tz currentMonth /\
                k = toISODate (App.dayDateOf tz currentMonth i) /\
                App.matchesSelectedDate tz (App.dayDateOf tz currentMonth i)
                  entry = true)).
Proof.
  induction entries as [|e es IH]; intros st st' k c Hrun Hk;
    cbn [forEach] in Hrun.
  - inversion Hrun; subst. now left.
  - destruct (App.forEachBody tz currentMonth selected st e) as [st1|err]
      eqn:Hbody; cbn in Hrun; [|discriminate].
    apply forEachBody_dates in Hbody.
    destruct (IH _ _ k c Hrun Hk) as [Hmid|(entry & Hin & Hrest)].
    + destruct (populateMonth_provenance _ _ _ _ _ k c Hbody Hmid)
        as [Hold|[Hc Hcase]]; [now left|].
      right. exists e. split; [now left|]. now split.
    + right. exists entry. split; [now right|exact Hrest].
Qed.

Lemma onSchedulesSnapshot_dates (tz currentMonth selected : Z)
  (entries : list Entry) (dates : gmap Z string) (occ : list Entry) :
  App.onSchedulesSnapshot tz currentMonth selected entries = Normal (dates, occ) ->
  exists acc,
    forEach (App.forEachBody tz currentMonth selected) entries (∅, [])
    = Normal (dates, acc).
Proof.
  unfold App.onSchedulesSnapshot.
  destruct (forEach _ entries (∅, [])) as [[d acc]|err]; cbn; [|discriminate].
  intros [= <- _]. now exists acc.
Qed.

(** X12. Every entry of the month map comes from a record of the snapshot
    and carries its colour: a one-time record dated that key in the
    displayed month, or a repeating record that the day view matches on
    the day of the month whose ISO date is the key. *)
Theorem month_map_entries_come_from_records (tz currentMonth selected : Z)
  (entries : list Entry) (dates : gmap Z string) (occ : list Entry)
  (k : Z) (c : string) :
  App.onSchedulesSnapshot tz currentMonth selected entries = Normal (dates, occ) ->
  dates !! k = Some c ->
  exists entry,
    In entry entries /\ c = activityColor entry /\
    ((recurrenceType entry = "none" /\ k = date entry /\
      App.dateInCurrentMonth tz currentMonth entry = true) \/
     (recurrenceType entry <> "none" /\
      exists i, 1 <= i <= App.getDaysInMonth tz currentMonth /\
                k = toISODate (App.dayDateOf tz currentMonth i) /\
                App.matchesSelectedDate tz (App.dayDateOf tz currentMonth i)
                  entry = true)).
Proof.
  intros Hrun Hk. apply onSchedulesSnapshot_dates in Hrun as [acc Hloop].
  destruct (forEach_provenance _ _ _ _ _ _ k c Hloop Hk) as [Hempty|Hfound].
  - cbn in Hempty. rewrite lookup_empty in Hempty. discriminate.
  - exact Hfound.
Qed.

(** X13. No phantom dots on a cell that shares its ISO date with no other
    day cell of the month.  When one-time records carry no window, such a
    cell whose ISO date is in the month map belongs to a day for which
    the day view lists an entry: selecting the cell shows it.  Under a
    constant zone offset every cell is such a cell ([dayDateOf_ISO_inj]);
    where two cells share an ISO date the statement is silent. *)
Theorem dot_means_day_has_entry (tz currentMonth selected : Z)
  (entries : list Entry) (dates : gmap Z string) (occ : list Entry) (i : Z) :
  App.onSchedulesSnapshot tz currentMonth selected entries = Normal (dates, occ) ->
  Forall (fun e : Entry =>
            recurrenceType e = "none" ->
            recurrenceStartDate e = None /\ recurrenceEndDate e = None)
         entries ->
  (forall j, 1 <= j <= App.getDaysInMonth tz currentMonth ->
             toISODate (App.dayDateOf tz currentMonth j)
             = toISODate (App.dayDateOf tz currentMonth i) -> j = i) ->
  is_Some (dates !! toISODate (App.dayDateOf tz currentMonth i)) ->
  exists entry,
    In entry entries /\
    App.matchesSelectedDate tz (App.dayDateOf tz currentMonth i) entry = true /\
    In entry (ShareView.filteredEntries tz (App.dayDateOf tz currentMonth i)
                entries).
Proof.
  intros Hrun Hplain Hcell [c Hk].
  apply onSchedulesSnapshot_dates in Hrun as [acc Hloop].
  destruct (forEach_provenance _ _ _ _ _ _ _ c Hloop Hk) as [Hempty|Hfound].
  { cbn in Hempty. rewrite lookup_empty in Hempty. discriminate. }
  destruct Hfound as (entry & Hin & _ & Hcase).
  assert (Hm : App.matchesSelectedDate tz (App.dayDateOf tz currentMonth i)
                 entry = true).
  { destruct Hcase as [(Hnone & Hdate & _)|(_ & i' & Hi' & Hkey & Hm)].
    - rewrite List.Forall_forall in Hplain.
      destruct (Hplain entry Hin Hnone) as [Hs He].
      unfold App.matchesSelectedDate, App.isDateWithinRecurrenceRange,
        entryStartDate, entryEndDate.
      rewrite Hs, He, Hnone, <- Hdate. cbn. now rewrite Z.eqb_refl.
    - symmetry in Hkey. apply (Hcell i' Hi') in Hkey. now subst i'. }
  exists entry. split; [exact Hin|]. split; [exact Hm|].
  rewrite filteredEntries_spec.
  apply (arraySort_In (fun e : Entry => startDateTimeUTC e)).
  apply List.filter_In. now split.
Qed.


Lemma bind_Normal {A B} (a : A) (k : A -> Completion B) :
  (Normal a ≫= k) = k a.
Proof.
  reflexivity.
Qed.





(** ** Sharing a day *)

Lemma LocalTime_utc (t : Z) : LocalTime 0 t = t.
Proof.
  unfold LocalTime. lia.
Qed.

Lemma toISODate_parseDateOnly (isoDay : Z) : toISODate (parseDateOnly isoDay) = isoDay.
Proof.
  apply Day_of_midnight.
Qed.

(** In UTC the filter of the shared view depends on the calendar day of
    the shared date only. *)
Lemma keepEntry_utc_day (d1 d2 : Z) (entry : Entry) :
  Day d1 = Day d2 ->
  ShareView.keepEntry 0 d1 entry = ShareView.keepEntry 0 d2 entry.
Proof.
  intros Hday. unfold ShareView.keepEntry, getDay, getFullYear, getMonth,
    getDate, toISODate.
  now rewrite !LocalTime_utc, Hday.
Qed.

(** X17. A share link carries the signed-in user and the ISO date of the
    selected date, and the shared view opened from it filters on that
    same ISO date: a one-time record without window is shown to the
    viewer exactly when the owner sees it, whatever the two time zones. *)
Theorem share_link_keeps_the_date (ownerZone viewerZone : Z) (uid : string)
  (selected : Z) :
  exists link sharedDate,
    App.generateShareLink (Some uid) selected = inl link /\
    openShareLink link = inl (uid, sharedDate) /\
    toISODate sharedDate = toISODate selected /\
    forall entry : Entry,
      recurrenceType entry = "none" ->
      recurrenceStartDate entry = None -> recurrenceEndDate entry = None ->
      ShareView.keepEntry viewerZone sharedDate entry
      = App.matchesSelectedDate ownerZone selected entry.
Proof.
  exists {| App.linkUserId := uid; App.linkDate := toISODate selected |},
    (parseDateOnly (toISODate selected)).
  split; [reflexivity|]. split; [reflexivity|].
  split; [apply toISODate_parseDateOnly|].
  intros entry Hnone Hs He.
  unfold ShareView.keepEntry, App.matchesSelectedDate,
    App.isDateWithinRecurrenceRange, entryStartDate, entryEndDate.
  rewrite Hs, He, Hnone, toISODate_parseDateOnly. reflexivity.
Qed.

(** X18. With owner and viewer both in UTC, the shared view opened from a
    share link lists exactly what the owner's day view lists for the
    selected date. *)
Theorem share_link_shows_owner_list_utc (uid : string) (selected : Z)
  (entries occ : list Entry) :
  OccurrenceList 0 selected entries occ ->
  exists link sharedDate,
    App.generateShareLink (Some uid) selected = inl link /\
    openShareLink link = inl (uid, sharedDate) /\
    ShareView.filteredEntries 0 sharedDate entries = occ.
Proof.
  intros Hocc.
  exists {| App.linkUserId := uid; App.linkDate := toISODate selected |},
    (parseDateOnly (toISODate selected)).
  split; [reflexivity|]. split; [reflexivity|].
  apply OccurrenceList_spec in Hocc. subst occ.
  rewrite <- filteredEntries_spec. unfold ShareView.filteredEntries.
  f_equal. apply List.filter_ext. intros entry.
  apply keepEntry_utc_day.
  change (Day (parseDateOnly (toISODate selected)))
    with (toISODate (parseDateOnly (toISODate selected))).
  apply toISODate_parseDateOnly.
Qed.

(** ** The recurrence window, zone by zone *)

(** X19. For dates after 1970 and a zone offset of less than a day, a
    record with window [s, e] passes the window test on the local
    calendar day [D] exactly when [s <= D <= e] in UTC, [s < D <= e] east
    of UTC, and [s <= D < e] west of UTC. *)
Theorem window_test_by_zone (tz : Z) (entry : Entry) (d s e : Z) :
  0 <= LocalTime tz d -> -1440 < tz < 1440 ->
  recurrenceStartDate entry = Some s -> recurrenceEndDate entry = Some e ->
  let D := toDateString tz d in
  (tz = 0 ->
   (App.isDateWithinRecurrenceRange tz entry d = true <-> s <= D <= e)) /\
  (0 < tz ->
   (App.isDateWithinRecurrenceRange tz entry d = true <-> s < D <= e)) /\
  (tz < 0 ->
   (App.isDateWithinRecurrenceRange tz entry d = true <-> s <= D < e)).
Proof.
  intros Hd Htz Hs He D.
  rewrite isDateWithinRecurrenceRange_zone by assumption.
  rewrite Hs, He. unfold nullOr. fold (toDateString tz d). fold D.
  rewrite andb_true_iff.
  split; [|split]; intros Hzone;
    destruct (Z.ltb_spec 0 tz), (Z.ltb_spec tz 0); try lia;
    rewrite ?Z.leb_le, ?Z.ltb_lt; tauto.
Qed.

(** ** From adding an entry to its dot *)

(** X15. In UTC, a one-time entry added for a selected date of the
    displayed month is, as the last record of the snapshot, in the month
    map under the ISO date of the selected date with its activity's
    colour. *)
Theorem added_one_time_entry_gets_dot_utc (now : Z) (st : App.State)
  (stored : ScheduleDoc) (selected currentMonth selected' : Z)
  (ident : string) (earlier : list Entry) (dates : gmap Z string)
  (occ : list Entry) :
  App.handleAddScheduleEntry 0 now st = App.AddDoc stored ->
  recurrenceType stored = "none" ->
  App.selectedDate st = Some selected ->
  getMonth 0 selected = getMonth 0 currentMonth ->
  getFullYear 0 selected = getFullYear 0 currentMonth ->
  App.onSchedulesSnapshot 0 currentMonth selected'
    (earlier ++ [{| entryId := ident; data := stored |}])
  = Normal (dates, occ) ->
  dates !! toISODate selected = Some (activityColor stored).
Proof.
  intros Hadd Htype Hsel Hmonth Hyear Hrun.
  apply handleAddScheduleEntry_AddDoc_inv in Hadd
    as (sel & s & e & activity & uid & Hsel' & _ & _ & _ & _ & _ & Hdoc).
  assert (sel = selected) by congruence. subst sel.
  assert (Hdate : date stored = toISODate selected) by (now rewrite Hdoc).
  apply onSchedulesSnapshot_dates in Hrun as [acc Hloop].
  rewrite forEach_app in Hloop.
  destruct (forEach _ earlier (∅, [])) as [st1|err];
    [rewrite bind_Normal in Hloop|discriminate].
  cbn [forEach] in Hloop.
  destruct (App.forEachBody 0 currentMonth selected' st1
              {| entryId := ident; data := stored |}) as [st2|err] eqn:Hbody;
    [rewrite bind_Normal in Hloop|discriminate].
  inversion Hloop; subst st2. apply forEachBody_dates in Hbody.
  cbn [fst] in Hbody.
  destruct (populateMonth_writes _ _ _ _ _ Hbody) as [Hwrite _].
  rewrite <- Hdate. apply Hwrite; [exact Htype|].
  unfold App.dateInCurrentMonth, getMonth, getFullYear in *.
  cbn [data date]. rewrite Hdate.
  rewrite !LocalTime_utc in *.
  change (Day (parseDateOnly (toISODate selected)))
    with (toISODate (parseDateOnly (toISODate selected))).
  rewrite toISODate_parseDateOnly. unfold toISODate.
  rewrite Hmonth, Hyear, !Z.eqb_refl. reflexivity.
Qed.

(** ** Instances *)


Lemma changeMonth_selects_first_of_month_witness :
  snd (App.changeMonth 0 1 (newDate 0 2024 11 15))
  = fst (App.changeMonth 0 1 (newDate 0 2024 11 15)).
Proof.
  refine (proj1 (changeMonth_selects_first_of_month 0 1
                   (newDate 0 2024 11 15) _ _)); vm_compute; reflexivity.
Defined.

Lemma changeMonth_offsets_add_witness :
  App.changeMonth 0 (-1) (fst (App.changeMonth 0 1 (newDate 0 2024 11 15)))
  = App.changeMonth 0 (1 + -1) (newDate 0 2024 11 15).
Proof.
  apply (changeMonth_offsets_add 0 1 (-1) (newDate 0 2024 11 15));
    vm_compute; reflexivity.
Defined.

Lemma ascending_1_3 : StronglySorted Z.lt [1; 3].
Proof.
  repeat constructor.
Qed.

Lemma weekday_toggle_flips_one_day_witness :
  StronglySorted Z.lt (App.handleRecurrenceDayChange 2 [1; 3]).
Proof.
  exact (proj1 (weekday_toggle_flips_one_day 2 [1; 3] ascending_1_3)).
Defined.

Lemma weekday_toggle_twice_and_commute_witness :
  App.handleRecurrenceDayChange 2 (App.handleRecurrenceDayChange 2 [1; 3])
  = [1; 3].
Proof.
  exact (proj1 (weekday_toggle_twice_and_commute 2 5 [1; 3] ascending_1_3)).
Defined.

Lemma sampleClicks_offered : Forall formEventOffered sampleClicks.
Proof.
  repeat constructor; cbn; auto; lia.
Qed.

Lemma stored_weekdays_ascending_indices_witness :
  exists stored days,
    App.handleAddScheduleEntry 0 0
      (foldl (fun s ev => App.formStep ev s)
         (sampleState "none" [] (Some (isoDate 2024 3 10)) None) sampleClicks)
    = App.AddDoc stored /\
    recurrenceDays stored = Some days /\
    StronglySorted Z.lt days.
Proof.
  assert (Hex : exists stored,
            App.handleAddScheduleEntry 0 0
              (foldl (fun s ev => App.formStep ev s)
                 (sampleState "none" [] (Some (isoDate 2024 3 10)) None)
                 sampleClicks)
            = App.AddDoc stored) by (eexists; vm_compute; reflexivity).
  destruct Hex as [stored Hadd].
  destruct (stored_weekdays_ascending_indices 0 0
              (sampleState "none" [] (Some (isoDate 2024 3 10)) None)
              sampleClicks stored eq_refl sampleClicks_offered Hadd)
    as (days & Hdays & Hsorted & _).
  exists stored, days. repeat split; [exact Hadd|exact Hdays|exact Hsorted].
Defined.

Lemma sampleStored_added :
  App.handleAddScheduleEntry 0 0 (sampleState "none" [] None None)
  = App.AddDoc sampleStored.
Proof.
  vm_compute. reflexivity.
Qed.

Lemma stored_activity_is_snapshot_witness :
  activityId sampleStored
  = App.newScheduleActivityId (sampleState "none" [] None None).
Proof.
  exact (proj1 (stored_activity_is_snapshot 0 0 _ _ sampleStored_added)).
Defined.

Lemma stored_instants_are_entered_times_witness :
  exists startTime endTime,
    endDateTimeUTC sampleStored - startDateTimeUTC sampleStored
    = (endTime - startTime) * msPerMinute /\
    0 < endTime - startTime.
Proof.
  destruct (stored_instants_are_entered_times 0 0 _ _ sampleStored_added)
    as (sel & s & e & _ & _ & _ & _ & _ & _ & Hlen & Hpos).
  exists s, e. split; [exact Hlen|exact Hpos].
Defined.

Lemma added_one_time_entry_is_listed_witness :
  In {| entryId := "new"; data := sampleStored |}
     (ShareView.filteredEntries 0 (newDate 0 2024 2 10)
        [oneTimeEarly; {| entryId := "new"; data := sampleStored |}]).
Proof.
  apply (added_one_time_entry_is_listed 0 0
           (sampleState "none" [] None None) sampleStored
           (newDate 0 2024 2 10) "new"
           [oneTimeEarly; {| entryId := "new"; data := sampleStored |}]).
  - exact sampleStored_added.
  - reflexivity.
  - reflexivity.
  - right. left. reflexivity.
  - left. reflexivity.
Defined.

Lemma march_snapshot :
  App.onSchedulesSnapshot 0 (newDate 0 2024 2 1) (newDate 0 2024 2 10)
    [oneTimeA]
  = Normal (<[isoDate 2024 3 10 := "#3366ff"]> ∅, [oneTimeA]).
Proof.
  vm_compute. reflexivity.
Qed.

Lemma month_map_entries_come_from_records_witness :
  exists entry, In entry [oneTimeA] /\ "#3366ff" = activityColor entry.
Proof.
  destruct (month_map_entries_come_from_records 0 (newDate 0 2024 2 1)
              (newDate 0 2024 2 10) [oneTimeA] _ _ (isoDate 2024 3 10)
              "#3366ff" march_snapshot)
    as (entry & Hin & Hc & _).
  - vm_compute. reflexivity.
  - exists entry. split; [exact Hin|exact Hc].
Defined.

Lemma dot_means_day_has_entry_witness :
  exists entry,
    In entry [oneTimeA] /\
    App.matchesSelectedDate 0 (App.dayDateOf 0 (newDate 0 2024 2 1) 10) entry
    = true.
Proof.
  destruct (dot_means_day_has_entry 0 (newDate 0 2024 2 1)
              (newDate 0 2024 2 10) [oneTimeA] _ _ 10 march_snapshot)
    as (entry & Hin & Hm & _).
  - repeat constructor; reflexivity.
  - intros j _ Hkey. exact (dayDateOf_ISO_inj _ _ _ _ Hkey).
  - exists "#3366ff". vm_compute. reflexivity.
  - exists entry. split; [exact Hin|exact Hm].
Defined.





Lemma share_link_shows_owner_list_utc_witness :
  exists link sharedDate,
    App.generateShareLink (Some "owner-1") (newDate 0 2024 2 10) = inl link /\
    openShareLink link = inl ("owner-1", sharedDate) /\
    ShareView.filteredEntries 0 sharedDate [oneTimeB; oneTimeEarly]
    = ShareView.filteredEntries 0 (newDate 0 2024 2 10) [oneTimeB; oneTimeEarly].
Proof.
  apply (share_link_shows_owner_list_utc "owner-1" (newDate 0 2024 2 10)
           [oneTimeB; oneTimeEarly]).
  left. reflexivity.
Defined.

Lemma window_test_by_zone_witness :
  App.isDateWithinRecurrenceRange 60 dailyMidMarch (newDate 60 2024 2 11) = true
  <-> isoDate 2024 3 10 < toDateString 60 (newDate 60 2024 2 11)
      <= isoDate 2024 3 20.
Proof.
  refine (proj1 (proj2 (window_test_by_zone 60 dailyMidMarch
                          (newDate 60 2024 2 11) (isoDate 2024 3 10)
                          (isoDate 2024 3 20) _ _ eq_refl eq_refl)) _).
  - vm_compute. discriminate.
  - lia.
  - lia.
Defined.

Lemma added_one_time_entry_gets_dot_utc_witness :
  (<[isoDate 2024 3 10 := "#3366ff"]> ∅ : gmap Z string)
    !! toISODate (newDate 0 2024 2 10)
  = Some (activityColor sampleStored).
Proof.
  apply (added_one_time_entry_gets_dot_utc 0
           (sampleState "none" [] None None) sampleStored
           (newDate 0 2024 2 10) (newDate 0 2024 2 1) (newDate 0 2024 2 12)
           "new" [] _ [] sampleStored_added).
  - reflexivity.
  - reflexivity.
  - vm_compute. reflexivity.
  - vm_compute. reflexivity.
  - vm_compute. reflexivity.
Defined.

Lemma daily_matches_utc_witness :
  App.matchesSelectedDate 0 (newDate 0 2024 2 20) dailyMidMarch = true.
Proof.
  apply (daily_matches_utc dailyMidMarch (newDate 0 2024 2 20)).
  - vm_compute. discriminate.
  - reflexivity.
  - split; intros b [= <-]; vm_compute; discriminate.
Defined.

Lemma weekly_matches_utc_witness :
  App.matchesSelectedDate 0 (newDate 0 2024 2 10) weeklySundays = true.
Proof.
  apply (weekly_matches_utc weeklySundays (newDate 0 2024 2 10) [0]).
  - vm_compute. discriminate.
  - reflexivity.
  - reflexivity.
  - split; [split; intros b [= <-]; vm_compute; discriminate|].
    vm_compute. left. reflexivity.
Defined.
